(** * github-latest-release: the handler of [api/download.go]

    A shallow embedding of the Go package [api] and the properties of its
    release selection, asset lookup and request handling.

    Go strings are byte strings and are modelled by [string] (a list of
    8-bit characters); [int64] values are modelled by [Z] (every value that
    occurs is a Unix time in seconds, far inside the 64-bit range); a
    pointer [*T] is [option T] with [None] for [nil]; a nil dereference is
    a run-time panic and is modelled in the [Go] result type.  Calls of
    [log.Printf] write to the process log only and are left out. *)

From Stdlib Require Import ZArith Lia Ascii String.
From stdpp Require Import base option list strings gmap.

Open Scope Z_scope.
Open Scope string_scope.

(** ** Results of Go code that may panic *)

Inductive Go (A : Type) : Type :=
| Ret (a : A)
| Panic (msg : string).
Arguments Ret {A} a.
Arguments Panic {A} msg.

#[global] Instance Go_ret : MRet Go := fun A a => Ret a.

#[global] Instance Go_bind : MBind Go := fun A B k m =>
  match m with
  | Ret a => k a
  | Panic msg => Panic msg
  end.

(** A pointer that may be nil. *)
Definition ptr (A : Type) : Type := option A.

Definition nilDeref : string :=
  "runtime error: invalid memory address or nil pointer dereference".

(** Reading a field through a pointer: [p.f]. *)
Definition deref {A : Type} (p : ptr A) : Go A :=
  match p with
  | Some a => Ret a
  | None => Panic nilDeref
  end.

(** Left fold of a loop body that may panic: [for _, x := range l { ... }]. *)
Fixpoint rangeM {A S : Type} (body : S -> A -> Go S) (l : list A) (s : S) : Go S :=
  match l with
  | [] => Ret s
  | x :: l' => s' ← body s x; rangeM body l' s'
  end.

(** ** Data model *)

(** The elements of [GitHubReleasesResp.Assets].  Of the fields of the Go
    struct the package reads [Name] and [BrowserDownloadUrl]; [Id] is kept
    to tell assets apart. *)
Record Asset : Type := mkAsset {
  AssetId : Z;
  AssetName : string;
  BrowserDownloadUrl : string
}.

(** [GitHubReleasesResp]: the package reads [PublishedAt] and [Assets];
    [Id], [TagName] and [Name] are kept to tell releases apart. *)
Record GitHubReleasesResp : Type := mkRelease {
  Id : Z;
  TagName : string;
  Name : string;
  PublishedAt : string;
  Assets : list Asset
}.

(** A Go [error] value, by its message ([err.Error()]). *)
Definition error : Type := string.

Definition errors_New (msg : string) : error := msg.

(** ** [AssertByName] *)

(** The loop of [AssertByName]: the first asset of that name. *)
Fixpoint findAsset (name : string) (assets : list Asset) : string * option error :=
  match assets with
  | [] => ("", Some (errors_New "not found"))
  | a :: rest =>
    if decide (AssetName a = name) then (BrowserDownloadUrl a, None)
    else findAsset name rest
  end.

Definition AssertByName (r : ptr GitHubReleasesResp) (name : string)
  : Go (string * option error) :=
  if decide (String.length name = 0%nat) then
    Ret ("", Some (errors_New "release filename is empty"))
  else if decide (r = None) then
    Ret ("", Some (errors_New "github api response is empty"))
  else
    rel ← deref r;
    if decide (length (Assets rel) = 0%nat) then
      Ret ("", Some (errors_New "asset list is empty"))
    else Ret (findAsset name (Assets rel)).

(** ** [TimeStrToUnix] and [GetLatestRelease] *)

(** [time.Time{}.Unix()]: the zero [Time] is January 1 of year 1, 00:00:00
    UTC. *)
Definition zeroTimeUnix : Z := -62135596800.

Section Selection.

(** [time.Parse(time.RFC3339, s)] of Go's standard library, followed by
    [Unix()]: [Some u] when the string parses, to the instant [u] seconds
    from the Unix epoch; [None] when [Parse] returns an error, and then
    its [Time] result is the zero [Time]. *)
Variable time_Parse_RFC3339 : string -> option Z.

Definition TimeStrToUnix (s : string) : Z :=
  if decide (s = "") then 0
  else
    match time_Parse_RFC3339 s with
    | Some u => u
    | None => zeroTimeUnix
    end.

(** The body of the loop of [GetLatestRelease]; [r.PublishedAt] is read
    before [max.PublishedAt]. *)
Definition latestStep (max r : ptr GitHubReleasesResp)
  : Go (ptr GitHubReleasesResp) :=
  r' ← deref r;
  max' ← deref max;
  if bool_decide (TimeStrToUnix (PublishedAt r') > TimeStrToUnix (PublishedAt max'))
  then Ret r else Ret max.

Definition GetLatestRelease (resp : list (ptr GitHubReleasesResp))
  : Go (ptr GitHubReleasesResp) :=
  if decide (length resp = 0%nat) then Ret None
  else if decide (length resp = 1%nat) then Ret (default None (resp !! 0%nat))
  else
    let max := default None (resp !! 0%nat) in
    rangeM latestStep resp max.

(** The timestamp [GetLatestRelease] compares releases by. *)
Definition stamp (r : GitHubReleasesResp) : Z :=
  TimeStrToUnix (PublishedAt r).

(** The loop body on releases that are not nil. *)
Definition keepLater (max r : GitHubReleasesResp) : GitHubReleasesResp :=
  if bool_decide (stamp r > stamp max) then r else max.

End Selection.

(** ** A model of [time.Parse] for the layout [time.RFC3339]

    The layout is ["2006-01-02T15:04:05Z07:00"].  [time.Parse] reads it
    chunk by chunk: a four-digit year, two-digit month and day, an hour of
    one or two digits, two-digit minute and second, an optional fraction
    of a second after ['.'] or [','], and then either ['Z'] or a numeric
    offset [±hh:mm]; nothing may follow.  The fields are range-checked and
    the day is checked against the length of the month. *)
Module GoTime.

Definition isDigit (c : ascii) : bool :=
  let n := nat_of_ascii c in (48 <=? n)%nat && (n <=? 57)%nat.

Definition digitVal (c : ascii) : Z := Z.of_nat (nat_of_ascii c) - 48.

(** [getnum(s, fixed)]: one or two leading digits, two when [fixed]. *)
Definition getnum (s : string) (fixed : bool) : option (Z * string) :=
  match s with
  | String c0 s1 =>
    if isDigit c0 then
      match s1 with
      | String c1 s2 =>
        if isDigit c1 then Some (digitVal c0 * 10 + digitVal c1, s2)
        else if fixed then None else Some (digitVal c0, s1)
      | EmptyString => if fixed then None else Some (digitVal c0, s1)
      end
    else None
  | EmptyString => None
  end.

(** [skip(value, prefix)] for a one-byte prefix other than a space. *)
Definition skip (c : ascii) (s : string) : option string :=
  match s with
  | String c0 rest => if decide (c0 = c) then Some rest else None
  | EmptyString => None
  end.

(** The chunk ["2006"]: four bytes, all digits. *)
Definition getyear (s : string) : option (Z * string) :=
  match s with
  | String a (String b (String c (String d rest))) =>
    if isDigit a && isDigit b && isDigit c && isDigit d
    then Some (((digitVal a * 10 + digitVal b) * 10 + digitVal c) * 10 + digitVal d, rest)
    else None
  | _ => None
  end.

Fixpoint dropDigits (s : string) : string :=
  match s with
  | String c rest => if isDigit c then dropDigits rest else s
  | EmptyString => s
  end.

Definition commaOrPeriod (c : ascii) : bool :=
  bool_decide (c = "."%char) || bool_decide (c = ","%char).

(** A fraction of a second in the input where the layout has none: it is
    read and, for the Unix time in seconds, dropped. *)
Definition skipFraction (s : string) : string :=
  match s with
  | String c0 (String c1 rest) =>
    if commaOrPeriod c0 && isDigit c1 then dropDigits rest else s
  | _ => s
  end.

(** The chunk ["Z07:00"]: the offset east of UTC in seconds. *)
Definition getzone (s : string) : option (Z * string) :=
  match s with
  | String c0 rest =>
    if decide (c0 = "Z"%char) then Some (0, rest)
    else
      match rest with
      | String h0 (String h1 (String c3 (String m0 (String m1 rest')))) =>
        if decide (c3 = ":"%char) then
          '(hr, _) ← getnum (String h0 (String h1 "")) true;
          '(mm, _) ← getnum (String m0 (String m1 "")) true;
          if (24 <? hr)%Z || (60 <? mm)%Z then None
          else if decide (c0 = "+"%char) then Some ((hr * 60 + mm) * 60, rest')
          else if decide (c0 = "-"%char) then Some (- ((hr * 60 + mm) * 60), rest')
          else None
        else None
      | _ => None
      end
  | EmptyString => None
  end.

Definition isLeap (year : Z) : bool :=
  (year mod 4 =? 0)%Z && (negb (year mod 100 =? 0)%Z || (year mod 400 =? 0)%Z).

Definition daysIn (month year : Z) : Z :=
  if (month =? 2)%Z then (if isLeap year then 29 else 28)
  else if (month =? 4)%Z || (month =? 6)%Z || (month =? 9)%Z || (month =? 11)%Z then 30
  else 31.

(** Days from 1970-01-01 to the given day of the proleptic Gregorian
    calendar. *)
Definition daysFromCivil (y m d : Z) : Z :=
  let y' := if (m <=? 2)%Z then y - 1 else y in
  let era := y' / 400 in
  let yoe := y' - era * 400 in
  let mp := if (2 <? m)%Z then m - 3 else m + 9 in
  let doy := (153 * mp + 2) / 5 + d - 1 in
  let doe := yoe * 365 + yoe / 4 - yoe / 100 + doy in
  era * 146097 + doe - 719468.

(** [time.Date(y, m, d, hh, mm, ss, 0, time.UTC).Unix()] for fields in
    range. *)
Definition unixOfDate (y m d hh mm ss : Z) : Z :=
  daysFromCivil y m d * 86400 + hh * 3600 + mm * 60 + ss.

(** [time.Parse(time.RFC3339, s)] followed by [Unix()]; [None] when
    [Parse] returns an error. *)
Definition Parse_RFC3339 (s : string) : option Z :=
  '(year, s) ← getyear s;
  s ← skip "-" s;
  '(month, s) ← getnum s true;
  guard (1 <= month <= 12);;
  s ← skip "-" s;
  '(day, s) ← getnum s true;
  s ← skip "T" s;
  '(hour, s) ← getnum s false;
  guard (hour < 24);;
  s ← skip ":" s;
  '(min, s) ← getnum s true;
  guard (min < 60);;
  s ← skip ":" s;
  '(sec, s) ← getnum s true;
  guard (sec < 60);;
  '(offset, s) ← getzone (skipFraction s);
  guard (s = "");;
  guard (1 <= day <= daysIn month year);;
  Some (unixOfDate year month day hour min sec - offset).

End GoTime.

(** ** Library functions the handler calls *)

(** [strings.Split(s, sep)] for a separator of one byte: the pieces of [s]
    between the occurrences of [sep], one more than there are
    occurrences. *)
Fixpoint strings_Split (s : string) (sep : ascii) : list string :=
  match s with
  | EmptyString => [""]
  | String c rest =>
    if Ascii.eqb c sep then "" :: strings_Split rest sep
    else
      match strings_Split rest sep with
      | piece :: pieces => String c piece :: pieces
      | [] => [String c ""]
      end
  end.

(** [fmt.Sprintf] for formats whose only verb is [%s], with string
    operands. *)
Fixpoint Sprintf (format : string) (args : list string) : string :=
  match format with
  | EmptyString => ""
  | String c rest =>
    match rest with
    | String d rest' =>
      if Ascii.eqb c "%" && Ascii.eqb d "s" then
        match args with
        | a :: args' => a +:+ Sprintf rest' args'
        | [] => "%!s(MISSING)" +:+ Sprintf rest' []
        end
      else String c (Sprintf rest args)
    | EmptyString => String c ""
    end
  end.

(** [url.Values.Get]: the first value of the key, or the empty string. *)
Definition Values_Get (v : gmap string (list string)) (key : string) : string :=
  match v !! key with
  | Some (x :: _) => x
  | _ => ""
  end.

(** ** Requests, responses and the effects of the handler *)

Definition homePage : string := "https://github-latest-release.vercel.app".
Definition githubAPI : string := "https://api.github.com/repos/%s/releases".

Definition MethodGet : string := "GET".
Definition StatusTemporaryRedirect : Z := 307.
Definition StatusMethodNotAllowed : Z := 405.

(** The incoming [*http.Request]: its method and [r.URL.Query()]. *)
Record Request : Type := mkRequest {
  Method : string;
  Query : gmap string (list string)
}.

(** The outgoing request built by [http.NewRequest]. *)
Record OutRequest : Type := mkOutRequest {
  reqMethod : string;
  reqURL : string
}.

(** What the handler has in hand after [client.Do], [ioutil.ReadAll] and
    [json.Unmarshal]. *)
Inductive Upstream : Type :=
| TransportError
| BodyReadError
| DecodeError
| Decoded (respStruct : list (ptr GitHubReleasesResp)).

(** The values stored in the [map[string]interface{}] of [NewResp]. *)
Inductive Value : Type :=
| VInt (n : Z)
| VString (s : string).

(** The effects of one run of the handler, in order: the outbound call and
    the calls on the [http.ResponseWriter]. *)
Inductive Event : Type :=
| ClientDo (req : OutRequest)
| ResponseWrite (data : gmap string Value)
| HttpRedirect (url : string) (code : Z)
| WriteHeader (code : Z)
| HeaderSet (key value : string).

(** How a run ends: the handler returns, or a panic unwinds it. *)
Inductive Ending : Type :=
| Returned
| Panicked (msg : string).

Definition NewResp (code : Z) (msg : string) : gmap string Value :=
  <["msg" := VString msg]> (<["code" := VInt code]> ∅).

(** [WriteJson(w, data)]: [w.Write] of the JSON encoding of [data]. *)
Definition WriteJson (data : gmap string Value) : list Event :=
  [ResponseWrite data].

Section Handler.

Variable time_Parse_RFC3339 : string -> option Z.

(** [http.NewRequest(method, url, nil)]; [None] when it returns an
    error. *)
Variable http_NewRequest : string -> string -> option OutRequest.

(** The answer of the upstream API to an outgoing request. *)
Variable upstream : OutRequest -> Upstream.

Definition DownloadLatestGithubRelease (r : Request) : list Event * Ending :=
  if decide (Method r = MethodGet) then
    let repoName := Values_Get (Query r) "repo" in
    if decide (repoName = "") then
      (WriteJson (NewResp (-1)
         (Sprintf "please provide repo name, for more detail, visit: %s" [homePage])),
       Returned)
    else if decide (length (strings_Split repoName "/") ≠ 2%nat) then
      (WriteJson (NewResp (-1)
         (Sprintf "please check your repo name(%s), for more detail, visit: %s"
            [repoName; homePage])),
       Returned)
    else
      let api := Sprintf githubAPI [repoName] in
      match http_NewRequest MethodGet api with
      | None => ([], Returned)
      | Some req =>
        match upstream req with
        | TransportError => ([ClientDo req], Returned)
        | BodyReadError => ([ClientDo req], Returned)
        | DecodeError => ([ClientDo req], Returned)
        | Decoded respStruct =>
          match GetLatestRelease time_Parse_RFC3339 respStruct with
          | Panic msg => ([ClientDo req], Panicked msg)
          | Ret ret =>
            if decide (ret = None) then
              (ClientDo req ::
                 WriteJson (NewResp (-1)
                   (Sprintf "repo: %s has no release jet" [repoName])),
               Returned)
            else
              match AssertByName ret (Values_Get (Query r) "name") with
              | Panic msg => ([ClientDo req], Panicked msg)
              | Ret (_, Some err) =>
                (ClientDo req ::
                   WriteJson (NewResp (-1)
                     (Sprintf "get repo: %s's asset err: %s" [repoName; err])),
                 Returned)
              | Ret (downloadURL, None) =>
                ([ClientDo req; HttpRedirect downloadURL StatusTemporaryRedirect],
                 Returned)
              end
          end
        end
      end
  else
    ([WriteHeader StatusMethodNotAllowed; HeaderSet "Allow" MethodGet], Returned).

(** The server hands each request to the handler; the package has no
    variables, so nothing is carried from one run to the next. *)
Fixpoint serve (requests : list Request) : list (list Event * Ending) :=
  match requests with
  | [] => []
  | r :: rest => DownloadLatestGithubRelease r :: serve rest
  end.

End Handler.

(** The number of occurrences of a byte in a string. *)
Fixpoint countByte (sep : ascii) (s : string) : nat :=
  match s with
  | EmptyString => 0
  | String c rest => (if Ascii.eqb c sep then 1 else 0) + countByte sep rest
  end.

(** ** Reading the trace of a run *)

(** The events that send something to the client: a body, a redirect or a
    status line.  Setting a header sends nothing by itself. *)
Definition isResponse (e : Event) : bool :=
  match e with
  | ResponseWrite _ | HttpRedirect _ _ | WriteHeader _ => true
  | ClientDo _ | HeaderSet _ _ => false
  end.

(** The outbound calls among the events. *)
Definition isCall (e : Event) : bool :=
  match e with
  | ClientDo _ => true
  | _ => false
  end.

(** The URL the handler asks the upstream API for. *)
Definition releasesURL (repo : string) : string :=
  "https://api.github.com/repos/" +:+ repo +:+ "/releases".

(** ** The paths of a run *)

Section Runs.

Variable time_Parse_RFC3339 : string → option Z.
Variable http_NewRequest : string → string → option OutRequest.
Variable upstream : OutRequest → Upstream.

(** The request passes the checks of the handler and [http.NewRequest]
    makes the outgoing request [req] for it. *)
Definition Reaches (r : Request) (req : OutRequest) : Prop :=
  Method r = MethodGet ∧
  Values_Get (Query r) "repo" ≠ "" ∧
  length (strings_Split (Values_Get (Query r) "repo") "/") = 2%nat ∧
  http_NewRequest MethodGet (releasesURL (Values_Get (Query r) "repo")) = Some req.

(** The paths through [DownloadLatestGithubRelease], one constructor for
    each [return] of the Go function and one for a panic in
    [GetLatestRelease], each with the conditions that lead to it and the
    effects of the run. *)
Inductive Run (r : Request) : list Event * Ending → Prop :=
| Run_method :
    Method r ≠ MethodGet →
    Run r ([WriteHeader 405; HeaderSet "Allow" "GET"], Returned)
| Run_no_repo :
    Method r = MethodGet →
    Values_Get (Query r) "repo" = "" →
    Run r ([ResponseWrite (NewResp (-1)
              ("please provide repo name, for more detail, visit: " +:+ homePage))],
           Returned)
| Run_bad_repo :
    Method r = MethodGet →
    Values_Get (Query r) "repo" ≠ "" →
    length (strings_Split (Values_Get (Query r) "repo") "/") ≠ 2%nat →
    Run r ([ResponseWrite (NewResp (-1)
              ("please check your repo name(" +:+ Values_Get (Query r) "repo" +:+
               "), for more detail, visit: " +:+ homePage))],
           Returned)
| Run_no_request :
    Method r = MethodGet →
    Values_Get (Query r) "repo" ≠ "" →
    length (strings_Split (Values_Get (Query r) "repo") "/") = 2%nat →
    http_NewRequest MethodGet (releasesURL (Values_Get (Query r) "repo")) = None →
    Run r ([], Returned)
| Run_upstream_failed (req : OutRequest) :
    Reaches r req →
    (∀ respStruct, upstream req ≠ Decoded respStruct) →
    Run r ([ClientDo req], Returned)
| Run_panic (req : OutRequest) (respStruct : list (ptr GitHubReleasesResp))
    (msg : string) :
    Reaches r req →
    upstream req = Decoded respStruct →
    GetLatestRelease time_Parse_RFC3339 respStruct = Panic msg →
    Run r ([ClientDo req], Panicked msg)
| Run_no_release (req : OutRequest) (respStruct : list (ptr GitHubReleasesResp)) :
    Reaches r req →
    upstream req = Decoded respStruct →
    GetLatestRelease time_Parse_RFC3339 respStruct = Ret None →
    Run r ([ClientDo req;
            ResponseWrite (NewResp (-1)
              ("repo: " +:+ Values_Get (Query r) "repo" +:+ " has no release jet"))],
           Returned)
| Run_asset_error (req : OutRequest) (respStruct : list (ptr GitHubReleasesResp))
    (rel : GitHubReleasesResp) (url : string) (err : error) :
    Reaches r req →
    upstream req = Decoded respStruct →
    GetLatestRelease time_Parse_RFC3339 respStruct = Ret (Some rel) →
    AssertByName (Some rel) (Values_Get (Query r) "name") = Ret (url, Some err) →
    Run r ([ClientDo req;
            ResponseWrite (NewResp (-1)
              ("get repo: " +:+ Values_Get (Query r) "repo" +:+
               "'s asset err: " +:+ err))],
           Returned)
| Run_redirect (req : OutRequest) (respStruct : list (ptr GitHubReleasesResp))
    (rel : GitHubReleasesResp) (url : string) :
    Reaches r req →
    upstream req = Decoded respStruct →
    GetLatestRelease time_Parse_RFC3339 respStruct = Ret (Some rel) →
    AssertByName (Some rel) (Values_Get (Query r) "name") = Ret (url, None) →
    Run r ([ClientDo req; HttpRedirect url 307], Returned).

End Runs.

(** ** Data for the examples *)

(** Releases used in the examples. *)
Definition rel2020 : GitHubReleasesResp :=
  mkRelease 1 "v1.0.0" "first" "2020-01-01T00:00:00Z" [].
Definition rel2023 : GitHubReleasesResp :=
  mkRelease 2 "v2.0.0" "second" "2023-06-01T00:00:00Z"
    [mkAsset 10 "app.zip" "https://x/app.zip"].
Definition relDraft : GitHubReleasesResp :=
  mkRelease 3 "v3.0.0" "draft" "" [].
Definition rel2023b : GitHubReleasesResp :=
  mkRelease 4 "v2.0.1" "same instant" "2023-06-01T02:00:00+02:00" [].
Definition relBad : GitHubReleasesResp :=
  mkRelease 5 "v0.0.1" "bad date" "yesterday" [].

(** An environment for the examples: every URL makes a request, and the
    upstream API answers every request with the same list. *)
Definition newRequest (method url : string) : option OutRequest :=
  Some (mkOutRequest method url).

Definition answering (respStruct : list (ptr GitHubReleasesResp))
  : OutRequest → Upstream :=
  fun _ => Decoded respStruct.

Definition getRequest (repo name : string) : Request :=
  mkRequest "GET" (<["repo" := [repo]]> (<["name" := [name]]> ∅)).

(** An upstream that knows one repository only. *)
Definition answeringFor (url : string) (respStruct : list (ptr GitHubReleasesResp))
  : OutRequest → Upstream :=
  fun req => if decide (reqURL req = url) then Decoded respStruct else TransportError.

(** * Properties *)

(** ** The library models on examples *)

Example zeroTimeUnix_is_year_one : GoTime.unixOfDate 1 1 1 0 0 0 = zeroTimeUnix.
Proof. reflexivity. Qed.

Example Parse_2020 : GoTime.Parse_RFC3339 "2020-01-01T00:00:00Z" = Some 1577836800.
Proof. vm_compute. reflexivity. Qed.

Example Parse_2023 : GoTime.Parse_RFC3339 "2023-06-01T00:00:00Z" = Some 1685577600.
Proof. vm_compute. reflexivity. Qed.

Example Parse_offset :
  GoTime.Parse_RFC3339 "2023-06-01T02:00:00.5+02:00" = Some 1685577600.
Proof. vm_compute. reflexivity. Qed.

Example Parse_garbage : GoTime.Parse_RFC3339 "yesterday" = None.
Proof. vm_compute. reflexivity. Qed.

Example Parse_feb30 : GoTime.Parse_RFC3339 "2023-02-30T00:00:00Z" = None.
Proof. vm_compute. reflexivity. Qed.

Example Split_owner_name : strings_Split "d4x1/tool" "/" = ["d4x1"; "tool"].
Proof. reflexivity. Qed.

Example Split_empty : strings_Split "" "/" = [""].
Proof. reflexivity. Qed.

Example Split_trailing : strings_Split "owner/" "/" = ["owner"; ""].
Proof. reflexivity. Qed.

Example Sprintf_api :
  Sprintf githubAPI ["d4x1/tool"] = "https://api.github.com/repos/d4x1/tool/releases".
Proof. reflexivity. Qed.

(** ** Release selection *)

Section SelectionFacts.

Variable parse : string → option Z.

Lemma latestStep_Some (max r : GitHubReleasesResp) :
  latestStep parse (Some max) (Some r) = Ret (Some (keepLater parse max r)).
Proof.
  unfold latestStep, keepLater, stamp. cbn.
  destruct (bool_decide _); reflexivity.
Qed.

Lemma rangeM_latestStep (rs : list GitHubReleasesResp) (max : GitHubReleasesResp) :
  rangeM (latestStep parse) (Some <$> rs) (Some max)
  = Ret (Some (fold_left (keepLater parse) rs max)).
Proof.
  revert max. induction rs as [|r rs IH]; intros max; [reflexivity|].
  cbn [fmap list_fmap rangeM fold_left].
  change (list_fmap _ _ Some rs) with (Some <$> rs).
  rewrite latestStep_Some. cbn. apply IH.
Qed.

Lemma keepLater_self (r : GitHubReleasesResp) : keepLater parse r r = r.
Proof. unfold keepLater. case_bool_decide; reflexivity. Qed.

(** The fold keeps the start value unless a later element is strictly
    greater; what it returns bounds the start value and every element,
    and every element before the returned one is strictly smaller. *)
Lemma fold_keepLater_spec (rs : list GitHubReleasesResp) (max : GitHubReleasesResp) :
  let x := fold_left (keepLater parse) rs max in
  stamp parse max <= stamp parse x ∧
  (∀ j r, rs !! j = Some r → stamp parse r <= stamp parse x) ∧
  ((x = max ∧ ∀ j r, rs !! j = Some r → stamp parse r <= stamp parse max) ∨
   (∃ i, rs !! i = Some x ∧ stamp parse max < stamp parse x ∧
         ∀ j r, (j < i)%nat → rs !! j = Some r → stamp parse r < stamp parse x)).
Proof.
  revert max. induction rs as [|r rs IH]; intros max; cbn zeta.
  - cbn. split; [lia|]. split; [intros j r H; inversion H|].
    left. split; [reflexivity|]. intros j r H; inversion H.
  - cbn [fold_left].
    destruct (IH (keepLater parse max r)) as (Hge & Hall & Hpos).
    assert (Hk : stamp parse max <= stamp parse (keepLater parse max r)
                 ∧ stamp parse r <= stamp parse (keepLater parse max r)).
    { unfold keepLater. case_bool_decide; lia. }
    split; [lia|]. split.
    { intros [|j] r' Hj; cbn in Hj.
      - inversion Hj; subst. lia.
      - eapply Hall; eassumption. }
    destruct Hpos as [[Heq Hle] | (i & Hi & Hlt & Hbefore)].
    + unfold keepLater in Heq, Hle |- *. case_bool_decide.
      * right. exists 0%nat. rewrite Heq. cbn.
        split; [reflexivity|]. split; [lia|]. intros j r' Hj; lia.
      * left. split; [exact Heq|].
        intros [|j] r' Hj; cbn in Hj.
        -- inversion Hj; subst. lia.
        -- eapply Hle; eassumption.
    + right. exists (S i). cbn. split; [exact Hi|]. split; [lia|].
      intros [|j] r' Hj Hr'; cbn in Hr'.
      * inversion Hr'; subst. lia.
      * eapply Hbefore; [|eassumption]. lia.
Qed.

(** On a list of releases none of which is nil, [GetLatestRelease]
    returns, and returns the fold of the loop body from the first
    element. *)
Lemma GetLatestRelease_Some (r0 : GitHubReleasesResp) (rs : list GitHubReleasesResp) :
  GetLatestRelease parse (Some <$> (r0 :: rs))
  = Ret (Some (fold_left (keepLater parse) rs r0)).
Proof.
  unfold GetLatestRelease.
  destruct rs as [|r1 rs]; [reflexivity|].
  cbn [fmap list_fmap length].
  change (list_fmap _ _ Some rs) with (Some <$> rs).
  repeat case_decide; try discriminate.
  cbn [lookup list_lookup default rangeM id fold_left].
  rewrite latestStep_Some, keepLater_self. cbn [mbind Go_bind].
  rewrite latestStep_Some. cbn [mbind Go_bind].
  apply rangeM_latestStep.
Qed.

End SelectionFacts.

Example latest_of_2020_2023 :
  GetLatestRelease GoTime.Parse_RFC3339 [Some rel2020; Some rel2023] = Ret (Some rel2023).
Proof. vm_compute. reflexivity. Qed.

Example latest_of_draft_2023 :
  GetLatestRelease GoTime.Parse_RFC3339 [Some relDraft; Some rel2023] = Ret (Some rel2023).
Proof. vm_compute. reflexivity. Qed.

Example latest_tie_keeps_first :
  GetLatestRelease GoTime.Parse_RFC3339 [Some rel2020; Some rel2023; Some rel2023b]
  = Ret (Some rel2023).
Proof. vm_compute. reflexivity. Qed.

Example latest_tie_keeps_first' :
  GetLatestRelease GoTime.Parse_RFC3339 [Some rel2023b; Some rel2020; Some rel2023]
  = Ret (Some rel2023b).
Proof. vm_compute. reflexivity. Qed.

Example latest_of_nils_panics :
  GetLatestRelease GoTime.Parse_RFC3339 [None; Some rel2023] = Panic nilDeref.
Proof. reflexivity. Qed.

(** C1: on a non-empty list of releases [GetLatestRelease] returns an
    element of the list whose [publishedAt], parsed as RFC3339 and taken
    as Unix seconds, is greatest.  The Unix seconds of a release are
    spelled out from the parser: what [time.Parse] yields, 0 for the empty
    string, and the seconds of the zero [time.Time] where the string does
    not parse.  No element has more seconds than the one returned, every
    element before it has strictly fewer (among equal maxima the first is
    returned), an element with strictly more than all others is the one
    returned, a list of one element yields that element, and of two
    releases that both parse the one of the later instant wins. *)
Theorem GetLatestRelease_first_greatest
    (parse : string → option Z) (rs : list GitHubReleasesResp) :
  rs ≠ [] →
  let unix := λ rel : GitHubReleasesResp,
    if decide (PublishedAt rel = "") then 0
    else match parse (PublishedAt rel) with
         | Some u => u
         | None => -62135596800
         end in
  ∃ (i : nat) (r : GitHubReleasesResp),
    rs !! i = Some r ∧
    GetLatestRelease parse (Some <$> rs) = Ret (Some r) ∧
    (∀ j r', rs !! j = Some r' → unix r' <= unix r) ∧
    (∀ j r', (j < i)%nat → rs !! j = Some r' → unix r' < unix r) ∧
    (∀ k rk, rs !! k = Some rk →
       (∀ j r', j ≠ k → rs !! j = Some r' → unix r' < unix rk) →
       i = k) ∧
    (length rs = 1%nat → i = 0%nat) ∧
    (∀ j r' u u', rs !! j = Some r' →
       PublishedAt r' ≠ "" → parse (PublishedAt r') = Some u →
       PublishedAt r ≠ "" → parse (PublishedAt r) = Some u' →
       u <= u' ∧ ((j < i)%nat → u < u')).
Proof.
  intros Hne unix.
  assert (Hunix : ∀ rel, unix rel = stamp parse rel) by reflexivity.
  assert (Hparsed : ∀ rel u, PublishedAt rel ≠ "" → parse (PublishedAt rel) = Some u →
                             unix rel = u).
  { intros rel u Hs Hp. unfold unix. case_decide; [contradiction|].
    rewrite Hp. reflexivity. }
  destruct rs as [|r0 rs]; [congruence|clear Hne].
  rewrite GetLatestRelease_Some.
  pose proof (fold_keepLater_spec parse rs r0) as H. cbn zeta in H.
  set (x := fold_left (keepLater parse) rs r0) in *.
  destruct H as (Hge & Hall & Hpos).
  rewrite <- !Hunix in Hge.
  assert (Hmax : ∀ j r', (r0 :: rs) !! j = Some r' → unix r' <= unix x).
  { intros [|j] r' Hj; cbn in Hj; [injection Hj as <-; exact Hge|].
    rewrite !Hunix. eapply Hall; eassumption. }
  assert (Hstrict : ∀ i, (r0 :: rs) !! i = Some x →
            ∀ k rk, (r0 :: rs) !! k = Some rk →
              (∀ j r', j ≠ k → (r0 :: rs) !! j = Some r' → unix r' < unix rk) →
              i = k).
  { intros i Hi k rk Hk Hgt. destruct (decide (i = k)) as [|Hik]; [assumption|].
    specialize (Hgt i x Hik Hi). specialize (Hmax k rk Hk). lia. }
  assert (Hfinish : ∀ i, (r0 :: rs) !! i = Some x →
            (∀ j r', (j < i)%nat → (r0 :: rs) !! j = Some r' → unix r' < unix x) →
            ∀ j r' u u', (r0 :: rs) !! j = Some r' →
              PublishedAt r' ≠ "" → parse (PublishedAt r') = Some u →
              PublishedAt x ≠ "" → parse (PublishedAt x) = Some u' →
              u <= u' ∧ ((j < i)%nat → u < u')).
  { intros i Hi Hbefore j r' u u' Hj Hs Hp Hs' Hp'.
    rewrite <- (Hparsed r' u Hs Hp), <- (Hparsed x u' Hs' Hp').
    split; [exact (Hmax j r' Hj)|]. intros Hlt. exact (Hbefore j r' Hlt Hj). }
  destruct Hpos as [[Heq Hle] | (i & Hi & Hlt & Hbefore)].
  - assert (H0 : (r0 :: rs) !! 0%nat = Some x) by (cbn; congruence).
    assert (Hb0 : ∀ j r', (j < 0)%nat → (r0 :: rs) !! j = Some r' → unix r' < unix x)
      by (intros j r' Hj; lia).
    exists 0%nat, x.
    split; [exact H0|]. split; [reflexivity|]. split; [exact Hmax|].
    split; [exact Hb0|]. split; [apply Hstrict, H0|].
    split; [reflexivity|]. apply Hfinish; assumption.
  - assert (HSi : (r0 :: rs) !! S i = Some x) by exact Hi.
    assert (HbS : ∀ j r', (j < S i)%nat → (r0 :: rs) !! j = Some r' →
                          unix r' < unix x).
    { intros [|j] r' Hj Hr'; cbn in Hr'.
      - injection Hr' as <-. rewrite !Hunix. exact Hlt.
      - rewrite !Hunix. eapply Hbefore; [|eassumption]. lia. }
    exists (S i), x.
    split; [exact HSi|]. split; [reflexivity|]. split; [exact Hmax|].
    split; [exact HbS|]. split; [apply Hstrict, HSi|]. split.
    + cbn. intros Hlen. apply lookup_lt_Some in Hi. lia.
    + apply Hfinish; assumption.
Qed.

Lemma GetLatestRelease_first_greatest_witness :
  [rel2020; rel2023; rel2023b] ≠ [] ∧
  ∃ (i : nat) (r : GitHubReleasesResp),
    [rel2020; rel2023; rel2023b] !! i = Some r ∧
    GetLatestRelease GoTime.Parse_RFC3339 (Some <$> [rel2020; rel2023; rel2023b])
    = Ret (Some r) ∧
    (∀ j r' u u', [rel2020; rel2023; rel2023b] !! j = Some r' →
       PublishedAt r' ≠ "" → GoTime.Parse_RFC3339 (PublishedAt r') = Some u →
       PublishedAt r ≠ "" → GoTime.Parse_RFC3339 (PublishedAt r) = Some u' →
       u <= u' ∧ ((j < i)%nat → u < u')).
Proof.
  split; [discriminate|].
  destruct (GetLatestRelease_first_greatest GoTime.Parse_RFC3339
              [rel2020; rel2023; rel2023b])
    as (i & r & Hi & Hsel & _ & _ & _ & _ & Hparsed).
  - discriminate.
  - exists i, r. split; [exact Hi|]. split; [exact Hsel|exact Hparsed].
Defined.

(** ** Timestamps that do not parse *)

Lemma TimeStrToUnix_empty (parse : string → option Z) : TimeStrToUnix parse "" = 0.
Proof. reflexivity. Qed.

Lemma TimeStrToUnix_parse_error (parse : string → option Z) (s : string) :
  s ≠ "" → parse s = None → TimeStrToUnix parse s = zeroTimeUnix.
Proof.
  intros Hs Hp. unfold TimeStrToUnix. case_decide; [contradiction|].
  rewrite Hp. reflexivity.
Qed.

Lemma TimeStrToUnix_parsed (parse : string → option Z) (s : string) (u : Z) :
  s ≠ "" → parse s = Some u → TimeStrToUnix parse s = u.
Proof.
  intros Hs Hp. unfold TimeStrToUnix. case_decide; [contradiction|].
  rewrite Hp. reflexivity.
Qed.

Example TimeStrToUnix_yesterday :
  TimeStrToUnix GoTime.Parse_RFC3339 "yesterday" = -62135596800.
Proof. vm_compute. reflexivity. Qed.

(** C2, as stated, fails: a [publishedAt] that is not empty and does not
    parse is not given the Unix time 0 but that of the zero [time.Time]. *)
Lemma TimeStrToUnix_unparsable_not_zero :
  PublishedAt relBad ≠ "" ∧
  GoTime.Parse_RFC3339 (PublishedAt relBad) = None ∧
  TimeStrToUnix GoTime.Parse_RFC3339 (PublishedAt relBad) = -62135596800 ∧
  TimeStrToUnix GoTime.Parse_RFC3339 (PublishedAt relBad) ≠ 0.
Proof.
  split; [discriminate|]. split; [vm_compute; reflexivity|].
  split; [vm_compute; reflexivity|]. vm_compute. discriminate.
Qed.

(** C2, amended: [TimeStrToUnix] gives 0 for the empty string and the Unix
    time of the zero [time.Time], -62135596800, for a string that is not
    empty and does not parse; either way the value is not positive, so in
    a list that also holds a release whose [publishedAt] parses to a
    positive Unix time the release selected has a positive timestamp and
    is not the one without a valid timestamp. *)
Theorem invalid_timestamp_loses
    (parse : string → option Z) (rs : list GitHubReleasesResp)
    (r v : GitHubReleasesResp) (u : Z) :
  r ∈ rs → v ∈ rs →
  PublishedAt r = "" ∨ parse (PublishedAt r) = None →
  PublishedAt v ≠ "" → parse (PublishedAt v) = Some u → 0 < u →
  TimeStrToUnix parse (PublishedAt r)
  = (if decide (PublishedAt r = "") then 0 else zeroTimeUnix) ∧
  TimeStrToUnix parse (PublishedAt r) <= 0 ∧
  ∃ x, GetLatestRelease parse (Some <$> rs) = Ret (Some x) ∧
       x ∈ rs ∧ u <= TimeStrToUnix parse (PublishedAt x) ∧ x ≠ r.
Proof.
  intros Hr Hv Hbad Hvne Hvp Hu.
  assert (Hval : TimeStrToUnix parse (PublishedAt r)
                 = if decide (PublishedAt r = "") then 0 else zeroTimeUnix).
  { case_decide as He.
    - rewrite He. reflexivity.
    - destruct Hbad as [|Hp]; [contradiction|].
      apply TimeStrToUnix_parse_error; assumption. }
  assert (Hle : TimeStrToUnix parse (PublishedAt r) <= 0).
  { rewrite Hval. case_decide; [lia|]. unfold zeroTimeUnix. lia. }
  split; [exact Hval|]. split; [exact Hle|].
  destruct rs as [|r0 rs]; [inversion Hr|].
  rewrite GetLatestRelease_Some.
  pose proof (fold_keepLater_spec parse rs r0) as H. cbn zeta in H.
  set (x := fold_left (keepLater parse) rs r0) in *.
  destruct H as (Hge & Hall & Hpos).
  assert (Hvx : u <= TimeStrToUnix parse (PublishedAt x)).
  { rewrite <- (TimeStrToUnix_parsed parse (PublishedAt v) u Hvne Hvp).
    apply elem_of_cons in Hv as [->|Hv]; [exact Hge|].
    apply list_elem_of_lookup in Hv as [j Hj]. exact (Hall j v Hj). }
  exists x. split; [reflexivity|]. split.
  - destruct Hpos as [[-> _] | (i & Hi & _)]; [left|].
    right. apply list_elem_of_lookup. exists i. exact Hi.
  - split; [exact Hvx|]. intros ->. lia.
Qed.

Lemma invalid_timestamp_loses_witness :
  (relBad ∈ [relDraft; relBad; rel2023]) ∧ (rel2023 ∈ [relDraft; relBad; rel2023]) ∧
  TimeStrToUnix GoTime.Parse_RFC3339 (PublishedAt relBad) <= 0 ∧
  ∃ x, GetLatestRelease GoTime.Parse_RFC3339 (Some <$> [relDraft; relBad; rel2023])
       = Ret (Some x) ∧
       x ∈ [relDraft; relBad; rel2023] ∧
       1685577600 <= TimeStrToUnix GoTime.Parse_RFC3339 (PublishedAt x) ∧ x ≠ relBad.
Proof.
  assert (H1 : relBad ∈ [relDraft; relBad; rel2023]) by (right; left).
  assert (H2 : rel2023 ∈ [relDraft; relBad; rel2023]) by (right; right; left).
  split; [exact H1|]. split; [exact H2|].
  refine (proj2 (invalid_timestamp_loses GoTime.Parse_RFC3339
                   [relDraft; relBad; rel2023] relBad rel2023 1685577600
                   H1 H2 _ _ _ _)).
  - right. vm_compute. reflexivity.
  - discriminate.
  - vm_compute. reflexivity.
  - lia.
Defined.

(** ** What [GetLatestRelease] returns *)

Lemma latestStep_Ret (parse : string → option Z) (max r p : ptr GitHubReleasesResp) :
  latestStep parse max r = Ret p → (p = max ∨ p = r) ∧ p ≠ None.
Proof.
  unfold latestStep. destruct r as [r'|]; [|discriminate].
  destruct max as [max'|]; [|discriminate]. cbn.
  destruct (bool_decide _); intros [= <-]; split; auto; discriminate.
Qed.

Lemma rangeM_latestStep_Ret (parse : string → option Z)
    (l : list (ptr GitHubReleasesResp)) (max p : ptr GitHubReleasesResp) :
  rangeM (latestStep parse) l max = Ret p →
  (p = max ∨ p ∈ l) ∧ (l ≠ [] → p ≠ None).
Proof.
  revert max. induction l as [|x l IH]; intros max; cbn [rangeM].
  - intros [= <-]. split; [left; reflexivity|congruence].
  - destruct (latestStep parse max x) as [s'|msg] eqn:Hstep; [|discriminate].
    cbn. intros Hrest.
    apply latestStep_Ret in Hstep as [Hs' Hnn].
    apply IH in Hrest as [Hp Hnil]. split.
    + destruct Hp as [->|Hp]; [|right; right; exact Hp].
      destruct Hs' as [->| ->]; [left; reflexivity|right; left].
    + intros _. destruct l as [|y l]; [|apply Hnil; discriminate].
      destruct Hp as [->|Hp]; [exact Hnn|inversion Hp].
Qed.

(** C9, as stated, fails: on the one-element list that holds a nil pointer
    [GetLatestRelease] returns nil although the list is not empty. *)
Lemma GetLatestRelease_nil_of_nonempty :
  ([None] : list (ptr GitHubReleasesResp)) ≠ [] ∧
  GetLatestRelease GoTime.Parse_RFC3339 [None] = Ret None.
Proof. split; [discriminate|reflexivity]. Qed.

(** C9, amended: whatever [GetLatestRelease] returns on a non-empty list is
    an element of that list; it returns nil when the list is empty, and
    besides that only for the one-element list whose element is nil; on a
    non-empty list of releases none of which is nil it returns, and what
    it returns is a release of the list, not nil. *)
Theorem GetLatestRelease_member
    (parse : string → option Z) (resp : list (ptr GitHubReleasesResp)) :
  (∀ p, GetLatestRelease parse resp = Ret p →
        (resp = [] ∨ p ∈ resp) ∧ (p = None ↔ resp = [] ∨ resp = [None])) ∧
  (∀ rs, resp = Some <$> rs →
        ∃ p, GetLatestRelease parse resp = Ret p ∧
             (rs = [] ∨ ∃ r, p = Some r ∧ r ∈ rs)) ∧
  GetLatestRelease parse [] = Ret None.
Proof.
  split; [|split; [|reflexivity]].
  - intros p. unfold GetLatestRelease.
    destruct resp as [|p0 [|p1 resp]].
    + cbn. intros [= <-]. split; [left; reflexivity|]. split; auto.
    + cbn. intros [= <-]. split; [right; left|]. split.
      * intros ->. right. reflexivity.
      * intros [|[= ->]]; [discriminate|reflexivity].
    + repeat case_decide; try discriminate.
      cbn [lookup list_lookup default id]. intros Hrun.
      apply rangeM_latestStep_Ret in Hrun as [Hp Hnn]. split.
      * right. destruct Hp as [->|Hp]; [left|exact Hp].
      * split; [intros ->; exfalso; apply Hnn; [discriminate|reflexivity]|].
        intros [|]; discriminate.
  - intros rs ->. destruct rs as [|r0 rs].
    + exists None. split; [reflexivity|left; reflexivity].
    + rewrite GetLatestRelease_Some. eexists. split; [reflexivity|].
      right. eexists. split; [reflexivity|].
      pose proof (fold_keepLater_spec parse rs r0) as H. cbn zeta in H.
      destruct H as (_ & _ & [[-> _] | (i & Hi & _)]); [left|].
      right. apply list_elem_of_lookup. exists i. exact Hi.
Qed.

Lemma GetLatestRelease_member_witness :
  (([Some rel2020; Some rel2023] = [] ∨ Some rel2023 ∈ [Some rel2020; Some rel2023]) ∧
   (Some rel2023 = None ↔
      [Some rel2020; Some rel2023] = [] ∨ [Some rel2020; Some rel2023] = [None])) ∧
  ∃ p, GetLatestRelease GoTime.Parse_RFC3339 [Some rel2020; Some rel2023] = Ret p ∧
       ([rel2020; rel2023] = [] ∨ ∃ r, p = Some r ∧ r ∈ [rel2020; rel2023]).
Proof.
  pose proof (GetLatestRelease_member GoTime.Parse_RFC3339
                [Some rel2020; Some rel2023]) as (Hret & Htot & _).
  split.
  - apply Hret. vm_compute. reflexivity.
  - apply (Htot [rel2020; rel2023]). reflexivity.
Defined.

(** ** Asset lookup *)

Lemma length_zero_empty (s : string) : String.length s = 0%nat ↔ s = "".
Proof. destruct s; cbn; split; intros H; congruence. Qed.

Lemma AssertByName_empty_name (r : ptr GitHubReleasesResp) :
  AssertByName r "" = Ret ("", Some "release filename is empty").
Proof. reflexivity. Qed.

Lemma AssertByName_nil (name : string) :
  name ≠ "" → AssertByName None name = Ret ("", Some "github api response is empty").
Proof.
  intros Hn. unfold AssertByName.
  case_decide as Hl; [apply length_zero_empty in Hl; contradiction|].
  reflexivity.
Qed.

Lemma AssertByName_release (rel : GitHubReleasesResp) (name : string) :
  name ≠ "" →
  AssertByName (Some rel) name
  = Ret (if decide (Assets rel = []) then ("", Some "asset list is empty")
         else findAsset name (Assets rel)).
Proof.
  intros Hn. unfold AssertByName.
  case_decide as Hl; [apply length_zero_empty in Hl; contradiction|].
  case_decide; [discriminate|]. cbn.
  destruct (Assets rel); reflexivity.
Qed.

(** The loop finds the first asset of the name, if there is one. *)
Lemma findAsset_found (name : string) (assets : list Asset) (i : nat) (a : Asset) :
  assets !! i = Some a → AssetName a = name →
  (∀ j a', (j < i)%nat → assets !! j = Some a' → AssetName a' ≠ name) →
  findAsset name assets = (BrowserDownloadUrl a, None).
Proof.
  revert i. induction assets as [|a0 assets IH]; intros i Hi Hname Hfirst.
  - inversion Hi.
  - cbn [findAsset]. destruct i as [|i]; cbn in Hi.
    + inversion Hi; subst. case_decide; [reflexivity|contradiction].
    + case_decide as H0.
      * exfalso. apply (Hfirst 0%nat a0); [lia|reflexivity|exact H0].
      * apply (IH i); [exact Hi|exact Hname|].
        intros j a' Hj Ha'. apply (Hfirst (S j) a'); [lia|exact Ha'].
Qed.

Lemma findAsset_none (name : string) (assets : list Asset) :
  (∀ a, a ∈ assets → AssetName a ≠ name) →
  findAsset name assets = ("", Some "not found").
Proof.
  induction assets as [|a0 assets IH]; intros Hno; [reflexivity|].
  cbn [findAsset]. case_decide as H0.
  - exfalso. apply (Hno a0); [left|exact H0].
  - apply IH. intros a Ha. apply Hno. right. exact Ha.
Qed.

Lemma findAsset_inv (name : string) (assets : list Asset) :
  (∃ i a, assets !! i = Some a ∧ AssetName a = name ∧
          (∀ j a', (j < i)%nat → assets !! j = Some a' → AssetName a' ≠ name) ∧
          findAsset name assets = (BrowserDownloadUrl a, None)) ∨
  ((∀ a, a ∈ assets → AssetName a ≠ name) ∧
   findAsset name assets = ("", Some "not found")).
Proof.
  induction assets as [|a0 assets IH].
  - right. split; [intros a Ha; inversion Ha|reflexivity].
  - cbn [findAsset]. case_decide as H0.
    + left. exists 0%nat, a0. cbn. repeat split; auto. intros j a' Hj; lia.
    + destruct IH as [(i & a & Hi & Hn & Hfirst & Hres) | [Hno Hres]].
      * left. exists (S i), a. cbn. repeat split; auto.
        intros [|j] a' Hj Ha'; cbn in Ha'; [inversion Ha'; subst; exact H0|].
        apply (Hfirst j a'); [lia|exact Ha'].
      * right. split; [|exact Hres].
        intros a Ha. apply elem_of_cons in Ha as [->|Ha]; [exact H0|apply Hno, Ha].
Qed.

Example AssertByName_app_zip :
  AssertByName (Some rel2023) "app.zip" = Ret ("https://x/app.zip", None).
Proof. vm_compute. reflexivity. Qed.

Example AssertByName_missing_zip :
  AssertByName (Some rel2023) "missing.zip" = Ret ("", Some "not found").
Proof. vm_compute. reflexivity. Qed.

Example AssertByName_case_differs :
  AssertByName (Some rel2023) "App.zip" = Ret ("", Some "not found").
Proof. vm_compute. reflexivity. Qed.

Example AssertByName_space_differs :
  AssertByName (Some rel2023) "app.zip " = Ret ("", Some "not found").
Proof. vm_compute. reflexivity. Qed.

(** C10: [AssertByName] does not dereference a nil receiver: it returns on
    every receiver and name, never panics; on a nil receiver it returns
    the error ["github api response is empty"] when the name is not empty;
    and an empty name gives ["release filename is empty"] whatever the
    receiver is, nil or a release with or without assets. *)
Theorem AssertByName_nil_safe (r : ptr GitHubReleasesResp) (name : string) :
  (∃ res, AssertByName r name = Ret res) ∧
  AssertByName None name
  = Ret ("", Some (if decide (name = "") then "release filename is empty"
                   else "github api response is empty")) ∧
  AssertByName r "" = Ret ("", Some "release filename is empty") ∧
  AssertByName None "" = Ret ("", Some "release filename is empty") ∧
  (∀ i t n p, AssertByName (Some (mkRelease i t n p [])) ""
              = Ret ("", Some "release filename is empty")).
Proof.
  split; [|split; [|split; [|split]]]; try reflexivity.
  - destruct (decide (name = "")) as [->|Hn]; [eexists; reflexivity|].
    destruct r as [rel|].
    + rewrite AssertByName_release by exact Hn. eexists; reflexivity.
    + rewrite AssertByName_nil by exact Hn. eexists; reflexivity.
  - case_decide as Hn; [rewrite Hn; reflexivity|apply AssertByName_nil, Hn].
Qed.

(** ** The handler *)

Lemma length_strings_Split (s : string) (sep : ascii) :
  length (strings_Split s sep) = S (countByte sep s).
Proof.
  induction s as [|c rest IH]; [reflexivity|].
  cbn [strings_Split countByte]. destruct (Ascii.eqb c sep).
  - cbn. rewrite IH. reflexivity.
  - destruct (strings_Split rest sep) as [|piece pieces]; [discriminate|].
    cbn in *. exact IH.
Qed.

Lemma append_empty_r (s : string) : s +:+ "" = s.
Proof.
  induction s as [|c s IH]; [reflexivity|].
  change (String c (s +:+ "") = String c s). rewrite IH. reflexivity.
Qed.

Lemma Sprintf_asset_err (repo err : string) :
  Sprintf "get repo: %s's asset err: %s" [repo; err]
  = "get repo: " +:+ repo +:+ "'s asset err: " +:+ err.
Proof.
  change (Sprintf "get repo: %s's asset err: %s" [repo; err])
    with ("get repo: " +:+ repo +:+ "'s asset err: " +:+ (err +:+ "")).
  rewrite append_empty_r. reflexivity.
Qed.

Section HandlerFacts.

Variable parse : string → option Z.
Variable http_NewRequest : string → string → option OutRequest.
Variable upstream : OutRequest → Upstream.

Abbreviation handler := (DownloadLatestGithubRelease parse http_NewRequest upstream).

Lemma handler_no_repo (r : Request) :
  Method r = MethodGet → Values_Get (Query r) "repo" = "" →
  handler r
  = ([ResponseWrite (NewResp (-1)
        ("please provide repo name, for more detail, visit: " +:+ homePage))],
     Returned).
Proof.
  intros Hm Hrepo. unfold DownloadLatestGithubRelease.
  case_decide; [|contradiction]. rewrite Hrepo.
  case_decide; [reflexivity|congruence].
Qed.

Lemma handler_bad_repo (r : Request) (repo : string) :
  Method r = MethodGet → Values_Get (Query r) "repo" = repo → repo ≠ "" →
  length (strings_Split repo "/") ≠ 2%nat →
  handler r
  = ([ResponseWrite (NewResp (-1)
        ("please check your repo name(" +:+ repo +:+
         "), for more detail, visit: " +:+ homePage))],
     Returned).
Proof.
  intros Hm Hrepo Hne Hsplit. unfold DownloadLatestGithubRelease.
  case_decide; [|contradiction]. rewrite Hrepo.
  case_decide; [contradiction|]. case_decide; [|contradiction].
  reflexivity.
Qed.

(** A well-formed request reaches the upstream API, and the rest of the
    run is decided by its answer. *)
Lemma handler_upstream (r : Request) (repo : string) (req : OutRequest) :
  Method r = MethodGet → Values_Get (Query r) "repo" = repo → repo ≠ "" →
  length (strings_Split repo "/") = 2%nat →
  http_NewRequest MethodGet ("https://api.github.com/repos/" +:+ repo +:+ "/releases")
  = Some req →
  handler r
  = match upstream req with
    | Decoded respStruct =>
      match GetLatestRelease parse respStruct with
      | Panic msg => ([ClientDo req], Panicked msg)
      | Ret None =>
        ([ClientDo req;
          ResponseWrite (NewResp (-1) ("repo: " +:+ repo +:+ " has no release jet"))],
         Returned)
      | Ret (Some rel) =>
        match AssertByName (Some rel) (Values_Get (Query r) "name") with
        | Panic msg => ([ClientDo req], Panicked msg)
        | Ret (_, Some err) =>
          ([ClientDo req;
            ResponseWrite (NewResp (-1)
              ("get repo: " +:+ repo +:+ "'s asset err: " +:+ err))],
           Returned)
        | Ret (downloadURL, None) =>
          ([ClientDo req; HttpRedirect downloadURL 307], Returned)
        end
      end
    | _ => ([ClientDo req], Returned)
    end.
Proof.
  intros Hm Hrepo Hne Hsplit Hreq. unfold DownloadLatestGithubRelease.
  case_decide; [|contradiction]. rewrite Hrepo.
  case_decide; [contradiction|]. case_decide; [contradiction|].
  change (Sprintf githubAPI [repo])
    with ("https://api.github.com/repos/" +:+ repo +:+ "/releases").
  rewrite Hreq. destruct (upstream req) as [| | |respStruct]; try reflexivity.
  destruct (GetLatestRelease parse respStruct) as [[rel|]|msg];
    repeat case_decide; try congruence; try reflexivity.
  destruct (AssertByName _ _) as [[url [err|]]|msg]; try reflexivity.
  rewrite Sprintf_asset_err. reflexivity.
Qed.

End HandlerFacts.

(** The envelope of [NewResp], field by field: the code, the message and
    the set of keys. *)
Ltac envelope_fields :=
  unfold NewResp;
  split;
  [ rewrite lookup_insert_ne by discriminate; apply lookup_insert_eq
  | split;
    [ apply lookup_insert_eq
    | rewrite !dom_insert_L, dom_empty_L; set_solver ] ].

Example post_is_not_allowed :
  DownloadLatestGithubRelease GoTime.Parse_RFC3339 newRequest (answering [Some rel2023])
    (mkRequest "POST" (<["repo" := ["d4x1/tool"]]> ∅))
  = ([WriteHeader 405; HeaderSet "Allow" "GET"], Returned).
Proof. reflexivity. Qed.

Example empty_first_segment_passes :
  DownloadLatestGithubRelease GoTime.Parse_RFC3339 newRequest (answering [Some rel2023])
    (getRequest "/name" "app.zip")
  = ([ClientDo (mkOutRequest "GET" "https://api.github.com/repos//name/releases");
      HttpRedirect "https://x/app.zip" 307],
     Returned).
Proof. vm_compute. reflexivity. Qed.

(** C4: a GET request whose [repo] parameter is missing or empty is
    answered with the envelope [{-1, "please provide repo name, for more
    detail, visit: <homepage>"}]: the one effect of the run is the write
    of a map that holds -1 under ["code"], that message under ["msg"] and
    nothing else; the handler then returns, and it makes no outbound
    call. *)
Theorem missing_repo_rejected
    (parse : string → option Z)
    (http_NewRequest : string → string → option OutRequest)
    (upstream : OutRequest → Upstream) (r : Request) :
  Method r = MethodGet →
  (Query r !! "repo" = None ∨ Query r !! "repo" = Some [] ∨
   ∃ rest, Query r !! "repo" = Some ("" :: rest)) →
  (∃ data,
     DownloadLatestGithubRelease parse http_NewRequest upstream r
     = ([ResponseWrite data], Returned) ∧
     data !! "code" = Some (VInt (-1)) ∧
     data !! "msg"
     = Some (VString
         "please provide repo name, for more detail, visit: https://github-latest-release.vercel.app") ∧
     dom data = ({["code"; "msg"]} : gset string)) ∧
  ∀ req, ClientDo req ∉ (DownloadLatestGithubRelease parse http_NewRequest upstream r).1.
Proof.
  intros Hm Hq.
  assert (Hget : Values_Get (Query r) "repo" = "").
  { unfold Values_Get. destruct Hq as [-> | [-> | [rest ->]]]; reflexivity. }
  rewrite (handler_no_repo parse http_NewRequest upstream r Hm Hget).
  split.
  - eexists. split; [reflexivity|]. envelope_fields.
  - intros req Hin. cbn in Hin. apply list_elem_of_singleton in Hin. discriminate.
Qed.

Lemma missing_repo_rejected_witness :
  ∃ data,
    DownloadLatestGithubRelease GoTime.Parse_RFC3339 newRequest (answering [Some rel2023])
      (mkRequest "GET" (<["name" := ["app.zip"]]> ∅))
    = ([ResponseWrite data], Returned) ∧
    data !! "code" = Some (VInt (-1)) ∧
    data !! "msg"
    = Some (VString
        "please provide repo name, for more detail, visit: https://github-latest-release.vercel.app") ∧
    dom data = ({["code"; "msg"]} : gset string).
Proof.
  refine (proj1 (missing_repo_rejected GoTime.Parse_RFC3339 newRequest
                   (answering [Some rel2023])
                   (mkRequest "GET" (<["name" := ["app.zip"]]> ∅)) _ _)).
  - reflexivity.
  - left. vm_compute. reflexivity.
Defined.

(** C7: when the decoded upstream list is empty, [GetLatestRelease] returns
    nil and the handler answers with the envelope
    [{-1, "repo: <repo> has no release jet"}]: after the outbound call it
    writes a map that holds -1 under ["code"], that message under ["msg"]
    and nothing else. *)
Theorem no_release_reported
    (parse : string → option Z)
    (http_NewRequest : string → string → option OutRequest)
    (upstream : OutRequest → Upstream) (r : Request) (repo : string)
    (req : OutRequest) :
  Method r = MethodGet →
  Values_Get (Query r) "repo" = repo → repo ≠ "" →
  length (strings_Split repo "/") = 2%nat →
  http_NewRequest MethodGet ("https://api.github.com/repos/" +:+ repo +:+ "/releases")
  = Some req →
  upstream req = Decoded [] →
  GetLatestRelease parse [] = Ret None ∧
  ∃ data,
    DownloadLatestGithubRelease parse http_NewRequest upstream r
    = ([ClientDo req; ResponseWrite data], Returned) ∧
    data !! "code" = Some (VInt (-1)) ∧
    data !! "msg" = Some (VString ("repo: " +:+ repo +:+ " has no release jet")) ∧
    dom data = ({["code"; "msg"]} : gset string).
Proof.
  intros Hm Hrepo Hne Hsplit Hreq Hup. split; [reflexivity|].
  rewrite (handler_upstream parse http_NewRequest upstream r repo req
             Hm Hrepo Hne Hsplit Hreq).
  rewrite Hup. cbn. eexists. split; [reflexivity|]. envelope_fields.
Qed.

Lemma no_release_reported_witness :
  ∃ data,
    DownloadLatestGithubRelease GoTime.Parse_RFC3339 newRequest (answering [])
      (getRequest "d4x1/tool" "app.zip")
    = ([ClientDo (mkOutRequest "GET" "https://api.github.com/repos/d4x1/tool/releases");
        ResponseWrite data],
       Returned) ∧
    data !! "code" = Some (VInt (-1)) ∧
    data !! "msg" = Some (VString "repo: d4x1/tool has no release jet") ∧
    dom data = ({["code"; "msg"]} : gset string).
Proof.
  refine (proj2 (no_release_reported GoTime.Parse_RFC3339 newRequest (answering [])
                   (getRequest "d4x1/tool" "app.zip") "d4x1/tool"
                   (mkOutRequest "GET" "https://api.github.com/repos/d4x1/tool/releases")
                   _ _ _ _ _ _)).
  - reflexivity.
  - vm_compute. reflexivity.
  - discriminate.
  - reflexivity.
  - reflexivity.
  - reflexivity.
Defined.

(** C3, as stated, fails: ["owner/"] has one ["/"] and an empty second
    segment, yet the handler does not answer with the malformed-repo
    envelope; it calls the upstream API. *)
Lemma empty_segment_not_rejected :
  strings_Split "owner/" "/" = ["owner"; ""] ∧
  DownloadLatestGithubRelease GoTime.Parse_RFC3339 newRequest (answering [])
    (getRequest "owner/" "app.zip")
  = ([ClientDo (mkOutRequest "GET" "https://api.github.com/repos/owner//releases");
      ResponseWrite (NewResp (-1) "repo: owner/ has no release jet")],
     Returned) ∧
  DownloadLatestGithubRelease GoTime.Parse_RFC3339 newRequest (answering [])
    (getRequest "owner/" "app.zip")
  ≠ ([ResponseWrite (NewResp (-1)
        "please check your repo name(owner/), for more detail, visit: https://github-latest-release.vercel.app")],
     Returned).
Proof.
  split; [reflexivity|].
  assert (H : DownloadLatestGithubRelease GoTime.Parse_RFC3339 newRequest (answering [])
                (getRequest "owner/" "app.zip")
              = ([ClientDo (mkOutRequest "GET" "https://api.github.com/repos/owner//releases");
                  ResponseWrite (NewResp (-1) "repo: owner/ has no release jet")],
                 Returned)).
  { apply (handler_upstream GoTime.Parse_RFC3339 newRequest (answering [])
             (getRequest "owner/" "app.zip") "owner/").
    - reflexivity.
    - vm_compute. reflexivity.
    - discriminate.
    - reflexivity.
    - reflexivity. }
  split; [exact H|]. rewrite H. discriminate.
Qed.

(** C3, amended: the handler counts the segments and does not look into
    them.  A GET request whose [repo] parameter is not empty and does not
    split on ["/"] into exactly two segments, that is, does not hold
    exactly one ["/"], is answered with the envelope [{-1, "please check
    your repo name(<repo>), for more detail, visit: <homepage>"}]: the one
    effect of the run is the write of a map that holds -1 under ["code"],
    that message under ["msg"] and nothing else, so no outbound call is
    made; a [repo] with exactly one ["/"] passes this check also when a
    segment is empty, and the upstream API is called. *)
Theorem malformed_repo_rejected
    (parse : string → option Z)
    (http_NewRequest : string → string → option OutRequest)
    (upstream : OutRequest → Upstream) (r : Request) (repo : string) :
  Method r = MethodGet →
  Values_Get (Query r) "repo" = repo → repo ≠ "" →
  (length (strings_Split repo "/") = 2%nat ↔ countByte "/" repo = 1%nat) ∧
  (countByte "/" repo ≠ 1%nat →
     ∃ data,
       DownloadLatestGithubRelease parse http_NewRequest upstream r
       = ([ResponseWrite data], Returned) ∧
       data !! "code" = Some (VInt (-1)) ∧
       data !! "msg"
       = Some (VString
           ("please check your repo name(" +:+ repo +:+
            "), for more detail, visit: https://github-latest-release.vercel.app")) ∧
       dom data = ({["code"; "msg"]} : gset string)) ∧
  (countByte "/" repo = 1%nat →
     ∀ req,
       http_NewRequest MethodGet
         ("https://api.github.com/repos/" +:+ repo +:+ "/releases") = Some req →
       ∃ events ending,
         DownloadLatestGithubRelease parse http_NewRequest upstream r
         = (ClientDo req :: events, ending)).
Proof.
  intros Hm Hrepo Hne.
  assert (Hlen : length (strings_Split repo "/") = 2%nat ↔ countByte "/" repo = 1%nat).
  { rewrite length_strings_Split. lia. }
  split; [exact Hlen|]. split.
  - intros Hcount.
    assert (Hsplit : length (strings_Split repo "/") ≠ 2%nat)
      by (rewrite Hlen; exact Hcount).
    rewrite (handler_bad_repo parse http_NewRequest upstream r repo Hm Hrepo Hne Hsplit).
    eexists. split; [reflexivity|]. envelope_fields.
  - intros Hcount req Hreq. apply Hlen in Hcount.
    rewrite (handler_upstream parse http_NewRequest upstream r repo req
               Hm Hrepo Hne Hcount Hreq).
    destruct (upstream req) as [| | |respStruct]; try (eexists _, _; reflexivity).
    destruct (GetLatestRelease parse respStruct) as [[rel|]|msg];
      try (eexists _, _; reflexivity).
    destruct (AssertByName _ _) as [[url [err|]]|msg]; eexists _, _; reflexivity.
Qed.

Lemma malformed_repo_rejected_witness :
  ∃ data,
    DownloadLatestGithubRelease GoTime.Parse_RFC3339 newRequest (answering [Some rel2023])
      (getRequest "d4x1/tool/extra" "app.zip")
    = ([ResponseWrite data], Returned) ∧
    data !! "code" = Some (VInt (-1)) ∧
    data !! "msg"
    = Some (VString
        ("please check your repo name(" +:+ "d4x1/tool/extra" +:+
         "), for more detail, visit: https://github-latest-release.vercel.app")) ∧
    dom data = ({["code"; "msg"]} : gset string).
Proof.
  refine (proj1 (proj2 (malformed_repo_rejected GoTime.Parse_RFC3339 newRequest
                          (answering [Some rel2023])
                          (getRequest "d4x1/tool/extra" "app.zip") "d4x1/tool/extra"
                          _ _ _)) _).
  - reflexivity.
  - vm_compute. reflexivity.
  - discriminate.
  - vm_compute. lia.
Defined.

(** C5: for the selected release and the requested name, [AssertByName]
    fails with ["release filename is empty"] when the name is empty, with
    ["asset list is empty"] when the release has no assets, and with
    ["not found"] when no asset has the name; it fails with nothing else,
    and each failure reaches the client as the envelope
    [{-1, "get repo: <repo>'s asset err: <error>"}]: after the outbound
    call the handler writes a map that holds -1 under ["code"], that
    message under ["msg"] and nothing else. *)
Theorem asset_errors_surface
    (parse : string → option Z)
    (http_NewRequest : string → string → option OutRequest)
    (upstream : OutRequest → Upstream) (r : Request) (repo : string)
    (req : OutRequest) (respStruct : list (ptr GitHubReleasesResp))
    (rel : GitHubReleasesResp) :
  Method r = MethodGet →
  Values_Get (Query r) "repo" = repo → repo ≠ "" →
  length (strings_Split repo "/") = 2%nat →
  http_NewRequest MethodGet ("https://api.github.com/repos/" +:+ repo +:+ "/releases")
  = Some req →
  upstream req = Decoded respStruct →
  GetLatestRelease parse respStruct = Ret (Some rel) →
  ∃ url err,
    AssertByName (Some rel) (Values_Get (Query r) "name") = Ret (url, err) ∧
    (Values_Get (Query r) "name" = "" → err = Some "release filename is empty") ∧
    (Values_Get (Query r) "name" ≠ "" → Assets rel = [] →
       err = Some "asset list is empty") ∧
    (Values_Get (Query r) "name" ≠ "" → Assets rel ≠ [] →
       (∀ a, a ∈ Assets rel → AssetName a ≠ Values_Get (Query r) "name") →
       err = Some "not found") ∧
    (∀ e, err = Some e →
       url = "" ∧
       (e = "release filename is empty" ∨ e = "asset list is empty" ∨ e = "not found") ∧
       ∃ data,
         DownloadLatestGithubRelease parse http_NewRequest upstream r
         = ([ClientDo req; ResponseWrite data], Returned) ∧
         data !! "code" = Some (VInt (-1)) ∧
         data !! "msg"
         = Some (VString ("get repo: " +:+ repo +:+ "'s asset err: " +:+ e)) ∧
         dom data = ({["code"; "msg"]} : gset string)).
Proof.
  intros Hm Hrepo Hne Hsplit Hreq Hup Hsel.
  pose proof (handler_upstream parse http_NewRequest upstream r repo req
                Hm Hrepo Hne Hsplit Hreq) as Hrun.
  rewrite Hup, Hsel in Hrun.
  set (name := Values_Get (Query r) "name") in *.
  destruct (decide (name = "")) as [Hname|Hname].
  - rewrite Hname in *. rewrite AssertByName_empty_name in *.
    exists "", (Some "release filename is empty").
    split; [reflexivity|]. split; [reflexivity|].
    split; [congruence|]. split; [congruence|].
    intros e [= <-]. split; [reflexivity|]. split; [left; reflexivity|].
    eexists. split; [exact Hrun|]. envelope_fields.
  - rewrite (AssertByName_release rel name Hname) in *.
    destruct (decide (Assets rel = [])) as [Hnil|Hnil].
    + exists "", (Some "asset list is empty").
      split; [reflexivity|]. split; [contradiction|].
      split; [reflexivity|]. split; [contradiction|].
      intros e [= <-]. split; [reflexivity|].
      split; [right; left; reflexivity|].
      eexists. split; [exact Hrun|]. envelope_fields.
    + destruct (findAsset_inv name (Assets rel))
        as [(i & a & Hi & Ha & Hfirst & Hfind) | [Hno Hfind]]; rewrite Hfind in *.
      * exists (BrowserDownloadUrl a), None.
        split; [reflexivity|]. split; [contradiction|].
        split; [contradiction|]. split.
        -- intros _ _ Hnone. exfalso. apply (Hnone a); [|exact Ha].
           apply list_elem_of_lookup. exists i. exact Hi.
        -- intros e He. discriminate.
      * exists "", (Some "not found").
        split; [reflexivity|]. split; [contradiction|].
        split; [contradiction|]. split; [reflexivity|].
        intros e [= <-]. split; [reflexivity|].
        split; [right; right; reflexivity|].
        eexists. split; [exact Hrun|]. envelope_fields.
Qed.

Lemma asset_errors_surface_witness :
  ∃ url err,
    AssertByName (Some rel2023) "missing.zip" = Ret (url, err) ∧
    err = Some "not found" ∧
    ∃ data,
      DownloadLatestGithubRelease GoTime.Parse_RFC3339 newRequest
        (answering [Some rel2020; Some rel2023]) (getRequest "d4x1/tool" "missing.zip")
      = ([ClientDo (mkOutRequest "GET" "https://api.github.com/repos/d4x1/tool/releases");
          ResponseWrite data],
         Returned) ∧
      data !! "code" = Some (VInt (-1)) ∧
      data !! "msg"
      = Some (VString ("get repo: " +:+ "d4x1/tool" +:+ "'s asset err: " +:+ "not found")) ∧
      dom data = ({["code"; "msg"]} : gset string).
Proof.
  destruct (asset_errors_surface GoTime.Parse_RFC3339 newRequest
              (answering [Some rel2020; Some rel2023])
              (getRequest "d4x1/tool" "missing.zip") "d4x1/tool"
              (mkOutRequest "GET" "https://api.github.com/repos/d4x1/tool/releases")
              [Some rel2020; Some rel2023] rel2023)
    as (url & err & Hres & _ & _ & Hnone & Hsurf).
  - reflexivity.
  - vm_compute. reflexivity.
  - discriminate.
  - reflexivity.
  - reflexivity.
  - reflexivity.
  - vm_compute. reflexivity.
  - exists url, err. split; [exact Hres|].
    assert (Herr : err = Some "not found").
    { apply Hnone.
      - vm_compute. discriminate.
      - discriminate.
      - intros a Ha. apply list_elem_of_singleton in Ha. subst a.
        vm_compute. discriminate. }
    split; [exact Herr|]. exact (proj2 (proj2 (Hsurf "not found" Herr))).
Defined.

(** C6: for the selected release and a name that is not empty, the assets
    are searched in order and the first one whose name equals the requested
    name, as a string of bytes, decides: the lookup returns its
    [browser_download_url] and the handler answers with a 307 redirect to
    it; the lookup succeeds in no other way. *)
Theorem first_match_redirects
    (parse : string → option Z)
    (http_NewRequest : string → string → option OutRequest)
    (upstream : OutRequest → Upstream) (r : Request) (repo : string)
    (req : OutRequest) (respStruct : list (ptr GitHubReleasesResp))
    (rel : GitHubReleasesResp) :
  Method r = MethodGet →
  Values_Get (Query r) "repo" = repo → repo ≠ "" →
  length (strings_Split repo "/") = 2%nat →
  http_NewRequest MethodGet ("https://api.github.com/repos/" +:+ repo +:+ "/releases")
  = Some req →
  upstream req = Decoded respStruct →
  GetLatestRelease parse respStruct = Ret (Some rel) →
  Values_Get (Query r) "name" ≠ "" →
  (∀ i a,
     Assets rel !! i = Some a →
     AssetName a = Values_Get (Query r) "name" →
     (∀ j a', (j < i)%nat → Assets rel !! j = Some a' →
              AssetName a' ≠ Values_Get (Query r) "name") →
     AssertByName (Some rel) (Values_Get (Query r) "name")
     = Ret (BrowserDownloadUrl a, None) ∧
     DownloadLatestGithubRelease parse http_NewRequest upstream r
     = ([ClientDo req; HttpRedirect (BrowserDownloadUrl a) 307], Returned)) ∧
  (∀ url,
     AssertByName (Some rel) (Values_Get (Query r) "name") = Ret (url, None) →
     ∃ i a,
       Assets rel !! i = Some a ∧
       AssetName a = Values_Get (Query r) "name" ∧
       (∀ j a', (j < i)%nat → Assets rel !! j = Some a' →
                AssetName a' ≠ Values_Get (Query r) "name") ∧
       url = BrowserDownloadUrl a).
Proof.
  intros Hm Hrepo Hne Hsplit Hreq Hup Hsel Hname.
  pose proof (handler_upstream parse http_NewRequest upstream r repo req
                Hm Hrepo Hne Hsplit Hreq) as Hrun.
  rewrite Hup, Hsel in Hrun.
  set (name := Values_Get (Query r) "name") in *.
  rewrite (AssertByName_release rel name Hname) in *.
  split.
  - intros i a Hi Ha Hfirst.
    assert (Hnil : Assets rel ≠ []).
    { intros Hnil. rewrite Hnil in Hi. inversion Hi. }
    destruct (decide (Assets rel = [])) as [|_]; [contradiction|].
    rewrite (findAsset_found name (Assets rel) i a Hi Ha Hfirst) in *.
    split; [reflexivity|exact Hrun].
  - intros url Hres.
    destruct (decide (Assets rel = [])) as [|_]; [discriminate|].
    destruct (findAsset_inv name (Assets rel))
      as [(i & a & Hi & Ha & Hfirst & Hfind) | [Hno Hfind]];
      rewrite Hfind in Hres; [|discriminate].
    exists i, a. repeat split; auto. congruence.
Qed.

Lemma first_match_redirects_witness :
  AssertByName (Some rel2023) "app.zip" = Ret ("https://x/app.zip", None) ∧
  DownloadLatestGithubRelease GoTime.Parse_RFC3339 newRequest
    (answering [Some rel2020; Some rel2023]) (getRequest "d4x1/tool" "app.zip")
  = ([ClientDo (mkOutRequest "GET" "https://api.github.com/repos/d4x1/tool/releases");
      HttpRedirect "https://x/app.zip" 307],
     Returned).
Proof.
  refine (proj1 (first_match_redirects GoTime.Parse_RFC3339 newRequest
                   (answering [Some rel2020; Some rel2023])
                   (getRequest "d4x1/tool" "app.zip") "d4x1/tool"
                   (mkOutRequest "GET" "https://api.github.com/repos/d4x1/tool/releases")
                   [Some rel2020; Some rel2023] rel2023 _ _ _ _ _ _ _ _)
                0%nat (mkAsset 10 "app.zip" "https://x/app.zip") _ _ _).
  - reflexivity.
  - vm_compute. reflexivity.
  - discriminate.
  - reflexivity.
  - reflexivity.
  - reflexivity.
  - vm_compute. reflexivity.
  - vm_compute. discriminate.
  - reflexivity.
  - vm_compute. reflexivity.
  - intros j a' Hj. lia.
Defined.

Lemma serve_lookup
    (parse : string → option Z)
    (http_NewRequest : string → string → option OutRequest)
    (upstream : OutRequest → Upstream) (before after : list Request) (r : Request) :
  serve parse http_NewRequest upstream (before ++ r :: after) !! length before
  = Some (DownloadLatestGithubRelease parse http_NewRequest upstream r).
Proof. induction before as [|r0 before IH]; [reflexivity|]. cbn. exact IH. Qed.

(** C8: the outcome of a run is a function of the method, the [repo] and
    [name] parameters and the answer of the upstream API for that
    repository: two runs that agree on these end alike, with the same
    writes and the same redirect target, whatever else differs in the
    requests or at the upstream; and a request is answered the same way
    wherever it stands in a sequence of requests, since no run leaves
    anything behind for the next. *)
Theorem handler_deterministic
    (parse : string → option Z)
    (http_NewRequest : string → string → option OutRequest)
    (upstream1 upstream2 : OutRequest → Upstream) (r1 r2 : Request) :
  Method r1 = Method r2 →
  Values_Get (Query r1) "repo" = Values_Get (Query r2) "repo" →
  Values_Get (Query r1) "name" = Values_Get (Query r2) "name" →
  (∀ req,
     http_NewRequest MethodGet
       ("https://api.github.com/repos/" +:+ Values_Get (Query r1) "repo" +:+ "/releases")
     = Some req →
     upstream1 req = upstream2 req) →
  DownloadLatestGithubRelease parse http_NewRequest upstream1 r1
  = DownloadLatestGithubRelease parse http_NewRequest upstream2 r2 ∧
  (∀ before after,
     serve parse http_NewRequest upstream1 (before ++ r1 :: after) !! length before
     = Some (DownloadLatestGithubRelease parse http_NewRequest upstream1 r1)) ∧
  (∀ before after,
     serve parse http_NewRequest upstream2 (before ++ r2 :: after) !! length before
     = Some (DownloadLatestGithubRelease parse http_NewRequest upstream1 r1)).
Proof.
  intros Hm Hrepo Hname Hup.
  assert (Heq : DownloadLatestGithubRelease parse http_NewRequest upstream1 r1
                = DownloadLatestGithubRelease parse http_NewRequest upstream2 r2).
  { unfold DownloadLatestGithubRelease.
    rewrite <- Hm, <- Hrepo, <- Hname.
    destruct (decide (Method r1 = MethodGet)); [|reflexivity].
    destruct (decide (Values_Get (Query r1) "repo" = "")); [reflexivity|].
    destruct (decide (length (strings_Split (Values_Get (Query r1) "repo") "/") ≠ 2%nat));
      [reflexivity|].
    change (Sprintf githubAPI [Values_Get (Query r1) "repo"])
      with ("https://api.github.com/repos/" +:+ Values_Get (Query r1) "repo" +:+ "/releases").
    destruct (http_NewRequest MethodGet _) as [req|] eqn:Hreq; [|reflexivity].
    rewrite (Hup req eq_refl). reflexivity. }
  split; [exact Heq|]. split.
  - intros before after. apply serve_lookup.
  - intros before after. rewrite Heq. apply serve_lookup.
Qed.

Lemma handler_deterministic_witness :
  DownloadLatestGithubRelease GoTime.Parse_RFC3339 newRequest
    (answering [Some rel2020; Some rel2023]) (getRequest "d4x1/tool" "app.zip")
  = DownloadLatestGithubRelease GoTime.Parse_RFC3339 newRequest
      (answeringFor "https://api.github.com/repos/d4x1/tool/releases"
         [Some rel2020; Some rel2023])
      (mkRequest "GET"
         (<["name" := ["app.zip"; "other.zip"]]>
            (<["ref" := ["readme"]]> (<["repo" := ["d4x1/tool"]]> ∅)))).
Proof.
  refine (proj1 (handler_deterministic GoTime.Parse_RFC3339 newRequest
                   (answering [Some rel2020; Some rel2023])
                   (answeringFor "https://api.github.com/repos/d4x1/tool/releases"
                      [Some rel2020; Some rel2023])
                   (getRequest "d4x1/tool" "app.zip")
                   (mkRequest "GET"
                      (<["name" := ["app.zip"; "other.zip"]]>
                         (<["ref" := ["readme"]]> (<["repo" := ["d4x1/tool"]]> ∅))))
                   _ _ _ _)).
  - reflexivity.
  - vm_compute. reflexivity.
  - vm_compute. reflexivity.
  - intros req Hreq. vm_compute in Hreq. injection Hreq as <-.
    vm_compute. reflexivity.
Defined.

(** * Further properties of the package *)

(** ** [GetLatestRelease] on lists that hold nil *)

Lemma rangeM_latestStep_nil (parse : string → option Z)
    (l : list (ptr GitHubReleasesResp)) (max : GitHubReleasesResp) :
  None ∈ l → rangeM (latestStep parse) l (Some max) = Panic nilDeref.
Proof.
  revert max. induction l as [|x l IH]; intros max Hin; [inversion Hin|].
  cbn [rangeM]. destruct x as [r|]; [|reflexivity].
  rewrite latestStep_Some. cbn. apply IH.
  apply elem_of_cons in Hin as [Hin|Hin]; [discriminate|exact Hin].
Qed.

Lemma rangeM_latestStep_no_nil (parse : string → option Z)
    (l : list (ptr GitHubReleasesResp)) (max : GitHubReleasesResp) :
  None ∉ l → ∃ x, rangeM (latestStep parse) l (Some max) = Ret (Some x).
Proof.
  revert max. induction l as [|x l IH]; intros max Hnot; [eexists; reflexivity|].
  cbn [rangeM]. destruct x as [r|]; [|exfalso; apply Hnot; left].
  rewrite latestStep_Some. cbn. apply IH.
  intros Hin. apply Hnot. right. exact Hin.
Qed.

Lemma nil_elem_or_not {A : Type} (l : list (ptr A)) : None ∈ l ∨ None ∉ l.
Proof.
  induction l as [|x l [IH|IH]].
  - right. intros H. inversion H.
  - left. right. exact IH.
  - destruct x as [a|]; [|left; left].
    right. intros H. apply elem_of_cons in H as [H|H]; [discriminate|contradiction].
Qed.

(** A list either has two or more elements one of which is nil, and then
    [GetLatestRelease] panics, or it is not such a list, and then
    [GetLatestRelease] returns. *)
Lemma GetLatestRelease_outcome
    (parse : string → option Z) (resp : list (ptr GitHubReleasesResp)) :
  ((2 ≤ length resp)%nat ∧ None ∈ resp ∧ GetLatestRelease parse resp = Panic nilDeref) ∨
  (¬ ((2 ≤ length resp)%nat ∧ None ∈ resp) ∧ ∃ p, GetLatestRelease parse resp = Ret p).
Proof.
  unfold GetLatestRelease. destruct resp as [|p0 [|p1 resp]].
  - right. split; [intros [H _]; cbn in H; lia|eexists; reflexivity].
  - right. split; [intros [H _]; cbn in H; lia|eexists; reflexivity].
  - repeat case_decide; try discriminate.
    cbn [lookup list_lookup default from_option id].
    destruct (nil_elem_or_not (p0 :: p1 :: resp)) as [Hin|Hnot].
    + left. split; [cbn; lia|]. split; [exact Hin|].
      destruct p0 as [r0|]; [apply rangeM_latestStep_nil, Hin|reflexivity].
    + right. split; [intros [_ Hin]; contradiction|].
      destruct p0 as [r0|]; [|exfalso; apply Hnot; left].
      destruct (rangeM_latestStep_no_nil parse (Some r0 :: p1 :: resp) r0 Hnot)
        as [x Hrun].
      exists (Some x). exact Hrun.
Qed.

(** X1: [GetLatestRelease] panics exactly on the lists of two or more
    elements that hold a nil pointer, and then with the nil-dereference
    error; on every other list it returns. *)
Theorem GetLatestRelease_panics_iff
    (parse : string → option Z) (resp : list (ptr GitHubReleasesResp)) :
  (GetLatestRelease parse resp = Panic nilDeref ↔ (2 ≤ length resp)%nat ∧ None ∈ resp) ∧
  (∀ msg, GetLatestRelease parse resp = Panic msg → msg = nilDeref) ∧
  (¬ ((2 ≤ length resp)%nat ∧ None ∈ resp) → ∃ p, GetLatestRelease parse resp = Ret p).
Proof.
  destruct (GetLatestRelease_outcome parse resp)
    as [(Hlen & Hin & Hrun) | (Hno & p & Hrun)]; rewrite Hrun.
  - split; [|split].
    + split; [intros _; split; assumption|reflexivity].
    + intros msg [= <-]. reflexivity.
    + intros Hno. exfalso. apply Hno. split; assumption.
  - split; [|split].
    + split; [discriminate|intros H; contradiction].
    + discriminate.
    + intros _. exists p. reflexivity.
Qed.

Lemma GetLatestRelease_panics_iff_witness :
  ∃ p, GetLatestRelease GoTime.Parse_RFC3339 [None] = Ret p.
Proof.
  refine (proj2 (proj2 (GetLatestRelease_panics_iff GoTime.Parse_RFC3339 [None])) _).
  intros [Hlen _]. cbn in Hlen. lia.
Defined.

(** ** Selection and the order of the list *)

Section SelectionOrder.

Variable parse : string → option Z.

Lemma keepLater_assoc (a b c : GitHubReleasesResp) :
  keepLater parse (keepLater parse a b) c = keepLater parse a (keepLater parse b c).
Proof.
  unfold keepLater. repeat case_bool_decide; try reflexivity; lia.
Qed.

Lemma fold_keepLater_shift (l : list GitHubReleasesResp) (a b : GitHubReleasesResp) :
  fold_left (keepLater parse) l (keepLater parse a b)
  = keepLater parse a (fold_left (keepLater parse) l b).
Proof.
  revert b. induction l as [|c l IH]; intros b; [reflexivity|].
  cbn [fold_left]. rewrite keepLater_assoc. apply IH.
Qed.

(** What [GetLatestRelease] returns on releases none of which is nil: a
    release of the list that no release of the list is later than. *)
Lemma GetLatestRelease_Some_bound (rs : list GitHubReleasesResp) (x : GitHubReleasesResp) :
  GetLatestRelease parse (Some <$> rs) = Ret (Some x) →
  x ∈ rs ∧ ∀ r, r ∈ rs → stamp parse r <= stamp parse x.
Proof.
  destruct rs as [|r0 rs]; [discriminate|].
  rewrite GetLatestRelease_Some. intros [= <-].
  pose proof (fold_keepLater_spec parse rs r0) as H. cbn zeta in H.
  destruct H as (Hge & Hall & Hpos). split.
  - destruct Hpos as [[-> _] | (i & Hi & _)]; [left|].
    right. apply list_elem_of_lookup. exists i. exact Hi.
  - intros r Hr. apply elem_of_cons in Hr as [->|Hr]; [exact Hge|].
    apply list_elem_of_lookup in Hr as [j Hj]. exact (Hall j r Hj).
Qed.

End SelectionOrder.

(** X2: selection composes over concatenation: the latest release of
    [l1 ++ l2] is the later of the latest of [l1] and the latest of [l2],
    and the one of [l1] is kept unless the one of [l2] is strictly
    later. *)
Theorem GetLatestRelease_app
    (parse : string → option Z) (l1 l2 : list GitHubReleasesResp)
    (x1 x2 : GitHubReleasesResp) :
  GetLatestRelease parse (Some <$> l1) = Ret (Some x1) →
  GetLatestRelease parse (Some <$> l2) = Ret (Some x2) →
  GetLatestRelease parse (Some <$> (l1 ++ l2)%list)
  = Ret (Some (if bool_decide (TimeStrToUnix parse (PublishedAt x2)
                               > TimeStrToUnix parse (PublishedAt x1))
               then x2 else x1)).
Proof.
  destruct l1 as [|r1 l1]; [discriminate|].
  destruct l2 as [|r2 l2]; [discriminate|].
  rewrite !GetLatestRelease_Some. intros [= <-] [= <-].
  change ((r1 :: l1) ++ r2 :: l2)%list with (r1 :: (l1 ++ r2 :: l2)%list).
  rewrite GetLatestRelease_Some, fold_left_app. cbn [fold_left].
  rewrite fold_keepLater_shift. reflexivity.
Qed.

Lemma GetLatestRelease_app_witness :
  GetLatestRelease GoTime.Parse_RFC3339 (Some <$> ([rel2023; rel2020] ++ [relDraft; rel2023b])%list)
  = Ret (Some (if bool_decide
                    (TimeStrToUnix GoTime.Parse_RFC3339 (PublishedAt rel2023b)
                     > TimeStrToUnix GoTime.Parse_RFC3339 (PublishedAt rel2023))
               then rel2023b else rel2023)).
Proof.
  apply (GetLatestRelease_app GoTime.Parse_RFC3339 [rel2023; rel2020] [relDraft; rel2023b]).
  - vm_compute. reflexivity.
  - vm_compute. reflexivity.
Defined.

(** X3: the timestamp of the selected release does not depend on the
    order of the list: two lists with the same releases in any order yield
    releases of the same timestamp (on a tie, perhaps different ones). *)
Theorem GetLatestRelease_stamp_perm
    (parse : string → option Z) (l1 l2 : list GitHubReleasesResp)
    (x1 x2 : GitHubReleasesResp) :
  l1 ≡ₚ l2 →
  GetLatestRelease parse (Some <$> l1) = Ret (Some x1) →
  GetLatestRelease parse (Some <$> l2) = Ret (Some x2) →
  TimeStrToUnix parse (PublishedAt x1) = TimeStrToUnix parse (PublishedAt x2).
Proof.
  intros Hperm H1 H2.
  apply GetLatestRelease_Some_bound in H1 as [Hin1 Hmax1].
  apply GetLatestRelease_Some_bound in H2 as [Hin2 Hmax2].
  assert (Hle1 : stamp parse x2 <= stamp parse x1).
  { apply Hmax1. rewrite Hperm. exact Hin2. }
  assert (Hle2 : stamp parse x1 <= stamp parse x2).
  { apply Hmax2. rewrite <- Hperm. exact Hin1. }
  unfold stamp in *. lia.
Qed.

Lemma GetLatestRelease_stamp_perm_witness :
  TimeStrToUnix GoTime.Parse_RFC3339 (PublishedAt rel2023)
  = TimeStrToUnix GoTime.Parse_RFC3339 (PublishedAt rel2023b).
Proof.
  apply (GetLatestRelease_stamp_perm GoTime.Parse_RFC3339
           [rel2023; rel2020; rel2023b] [rel2023b; rel2020; rel2023]).
  - etransitivity; [apply Permutation_swap|].
    etransitivity; [apply perm_skip, Permutation_swap|].
    etransitivity; [apply Permutation_swap|]. reflexivity.
  - vm_compute. reflexivity.
  - vm_compute. reflexivity.
Defined.

(** ** Asset lookup: what an error says, and longer asset lists *)

(** X4: an error of [AssertByName] comes with the empty URL and names the
    check that failed: the empty name, the nil receiver, the empty asset
    list, or a list without an asset of that name, in this order of
    precedence. *)
Theorem AssertByName_error_cause
    (r : ptr GitHubReleasesResp) (name url : string) (e : error) :
  AssertByName r name = Ret (url, Some e) →
  url = "" ∧
  ((e = "release filename is empty" ∧ name = "") ∨
   (e = "github api response is empty" ∧ name ≠ "" ∧ r = None) ∨
   (e = "asset list is empty" ∧ name ≠ "" ∧ ∃ rel, r = Some rel ∧ Assets rel = []) ∨
   (e = "not found" ∧ name ≠ "" ∧
    ∃ rel, r = Some rel ∧ Assets rel ≠ [] ∧ ∀ a, a ∈ Assets rel → AssetName a ≠ name)).
Proof.
  destruct (decide (name = "")) as [->|Hname].
  - rewrite AssertByName_empty_name. intros [= <- <-].
    split; [reflexivity|]. left. split; reflexivity.
  - destruct r as [rel|].
    + rewrite (AssertByName_release rel name Hname).
      destruct (decide (Assets rel = [])) as [Hnil|Hnil].
      * intros [= <- <-]. split; [reflexivity|]. right; right; left.
        split; [reflexivity|]. split; [exact Hname|]. exists rel. split; auto.
      * destruct (findAsset_inv name (Assets rel))
          as [(i & a & _ & _ & _ & Hfind) | [Hno Hfind]]; rewrite Hfind.
        -- discriminate.
        -- intros [= <- <-]. split; [reflexivity|]. right; right; right.
           split; [reflexivity|]. split; [exact Hname|]. exists rel. auto.
    + rewrite (AssertByName_nil name Hname). intros [= <- <-].
      split; [reflexivity|]. right; left. auto.
Qed.

Lemma AssertByName_error_cause_witness :
  "" = "" ∧
  (("not found" = "release filename is empty" ∧ "missing.zip" = "") ∨
   ("not found" = "github api response is empty" ∧ "missing.zip" ≠ ""
    ∧ Some rel2023 = None) ∨
   ("not found" = "asset list is empty" ∧ "missing.zip" ≠ ""
    ∧ ∃ rel, Some rel2023 = Some rel ∧ Assets rel = []) ∨
   ("not found" = "not found" ∧ "missing.zip" ≠ "" ∧
    ∃ rel, Some rel2023 = Some rel ∧ Assets rel ≠ []
           ∧ ∀ a, a ∈ Assets rel → AssetName a ≠ "missing.zip")).
Proof.
  apply (AssertByName_error_cause (Some rel2023) "missing.zip" "" "not found").
  vm_compute. reflexivity.
Defined.

Lemma findAsset_app_found (name url : string) (l1 l2 : list Asset) :
  findAsset name l1 = (url, None) → findAsset name (l1 ++ l2)%list = (url, None).
Proof.
  induction l1 as [|a l1 IH]; [discriminate|].
  cbn [findAsset app]. case_decide; [trivial|exact IH].
Qed.

Lemma findAsset_app_none (name : string) (l1 l2 : list Asset) :
  (∀ a, a ∈ l1 → AssetName a ≠ name) →
  findAsset name (l1 ++ l2)%list = findAsset name l2.
Proof.
  induction l1 as [|a l1 IH]; intros Hno; [reflexivity|].
  cbn [findAsset app]. case_decide as Ha.
  - exfalso. apply (Hno a); [left|exact Ha].
  - apply IH. intros a' Ha'. apply Hno. right. exact Ha'.
Qed.

(** X5: assets that follow do not change a lookup that succeeds, and
    assets of other names in front do not change a lookup at all: a
    release with the assets [l1 ++ l2] answers as the one with [l1] when
    that lookup succeeds, and as the one with [l2] when no asset of [l1]
    has the name and [l2] is not empty. *)
Theorem AssertByName_app
    (i : Z) (tag title published name : string) (l1 l2 : list Asset) :
  (∀ url,
     AssertByName (Some (mkRelease i tag title published l1)) name = Ret (url, None) →
     AssertByName (Some (mkRelease i tag title published (l1 ++ l2)%list)) name
     = Ret (url, None)) ∧
  ((∀ a, a ∈ l1 → AssetName a ≠ name) → l2 ≠ [] →
     AssertByName (Some (mkRelease i tag title published (l1 ++ l2)%list)) name
     = AssertByName (Some (mkRelease i tag title published l2)) name).
Proof.
  destruct (decide (name = "")) as [->|Hname].
  - split; [intros url H; rewrite AssertByName_empty_name in H; discriminate|].
    intros _ _. reflexivity.
  - rewrite !(AssertByName_release _ name Hname). cbn [Assets]. split.
    + intros url. destruct l1 as [|a l1]; [discriminate|].
      destruct (decide (a :: l1 = [])); [discriminate|].
      destruct (decide ((a :: l1) ++ l2 = [])%list); [discriminate|].
      intros H. f_equal. apply findAsset_app_found. congruence.
    + intros Hno Hl2.
      destruct (decide (l2 = [])); [contradiction|].
      destruct (decide (l1 ++ l2 = [])%list) as [Happ|_].
      * apply app_eq_nil in Happ as [_ ?]. contradiction.
      * f_equal. apply findAsset_app_none, Hno.
Qed.

Lemma AssertByName_app_witness :
  AssertByName
    (Some (mkRelease 2 "v2.0.0" "second" "2023-06-01T00:00:00Z"
             ([mkAsset 10 "app.zip" "https://x/app.zip"]
              ++ [mkAsset 11 "app.zip" "https://y/app.zip"])%list))
    "app.zip"
  = Ret ("https://x/app.zip", None).
Proof.
  apply (proj1 (AssertByName_app 2 "v2.0.0" "second" "2023-06-01T00:00:00Z" "app.zip"
                  [mkAsset 10 "app.zip" "https://x/app.zip"]
                  [mkAsset 11 "app.zip" "https://y/app.zip"])).
  vm_compute. reflexivity.
Defined.

(** ** The envelope of [NewResp] *)

(** X6: the envelope of [NewResp] holds the code under ["code"], the
    message under ["msg"] and nothing else, and the two can be read back:
    envelopes are equal only when their codes and messages are. *)
Theorem NewResp_lookup (code : Z) (msg : string) :
  NewResp code msg !! "code" = Some (VInt code) ∧
  NewResp code msg !! "msg" = Some (VString msg) ∧
  (∀ key, key ≠ "code" → key ≠ "msg" → NewResp code msg !! key = None) ∧
  dom (NewResp code msg) = ({["code"; "msg"]} : gset string) ∧
  (∀ code' msg', NewResp code msg = NewResp code' msg' → code = code' ∧ msg = msg').
Proof.
  unfold NewResp. split; [|split; [|split; [|split]]].
  - rewrite lookup_insert_ne by discriminate. apply lookup_insert_eq.
  - apply lookup_insert_eq.
  - intros key Hc Hm.
    rewrite lookup_insert_ne by congruence.
    rewrite lookup_insert_ne by congruence. apply lookup_empty.
  - rewrite !dom_insert_L, dom_empty_L. set_solver.
  - intros code' msg' Heq. split.
    + assert (H : (<["msg":=VString msg]> (<["code":=VInt code]> ∅) : gmap string Value)
                    !! "code"
                  = (<["msg":=VString msg']> (<["code":=VInt code']> ∅) : gmap string Value)
                      !! "code") by (rewrite Heq; reflexivity).
      rewrite !(lookup_insert_ne _ "msg" "code") in H by discriminate.
      rewrite !lookup_insert_eq in H. congruence.
    + assert (H : (<["msg":=VString msg]> (<["code":=VInt code]> ∅) : gmap string Value)
                    !! "msg"
                  = (<["msg":=VString msg']> (<["code":=VInt code']> ∅) : gmap string Value)
                      !! "msg") by (rewrite Heq; reflexivity).
      rewrite !lookup_insert_eq in H. congruence.
Qed.

(** ** The runs of the handler, path by path *)

Lemma AssertByName_returns (r : ptr GitHubReleasesResp) (name : string) :
  ∃ url err, AssertByName r name = Ret (url, err).
Proof.
  destruct (decide (name = "")) as [->|Hn]; [eexists _, _; reflexivity|].
  destruct r as [rel|].
  - rewrite AssertByName_release by exact Hn.
    destruct (if decide (Assets rel = []) then _ else _) as [url err].
    eexists _, _; reflexivity.
  - rewrite AssertByName_nil by exact Hn. eexists _, _; reflexivity.
Qed.

(** Every run of the handler follows one of the paths of [Run]. *)
Lemma handler_Run
    (parse : string → option Z)
    (http_NewRequest : string → string → option OutRequest)
    (upstream : OutRequest → Upstream) (r : Request) :
  Run parse http_NewRequest upstream r
    (DownloadLatestGithubRelease parse http_NewRequest upstream r).
Proof.
  destruct (decide (Method r = MethodGet)) as [Hm|Hm].
  2:{ unfold DownloadLatestGithubRelease. case_decide; [contradiction|].
      apply Run_method, Hm. }
  destruct (decide (Values_Get (Query r) "repo" = "")) as [Hrepo|Hrepo].
  { rewrite (handler_no_repo parse http_NewRequest upstream r Hm Hrepo).
    apply Run_no_repo; assumption. }
  destruct (decide (length (strings_Split (Values_Get (Query r) "repo") "/") = 2%nat))
    as [Hsplit|Hsplit].
  2:{ rewrite (handler_bad_repo parse http_NewRequest upstream r _ Hm eq_refl Hrepo Hsplit).
      apply Run_bad_repo; assumption. }
  destruct (http_NewRequest MethodGet (releasesURL (Values_Get (Query r) "repo")))
    as [req|] eqn:Hreq.
  2:{ unfold DownloadLatestGithubRelease. repeat case_decide; try contradiction.
      change (Sprintf githubAPI [Values_Get (Query r) "repo"])
        with (releasesURL (Values_Get (Query r) "repo")).
      rewrite Hreq. apply Run_no_request; assumption. }
  assert (Hreach : Reaches http_NewRequest r req) by (repeat split; assumption).
  rewrite (handler_upstream parse http_NewRequest upstream r _ req
             Hm eq_refl Hrepo Hsplit Hreq).
  destruct (upstream req) as [| | |respStruct] eqn:Hup;
    try (apply Run_upstream_failed; [exact Hreach|rewrite Hup; discriminate]).
  destruct (GetLatestRelease parse respStruct) as [[rel|]|msg] eqn:Hsel.
  - destruct (AssertByName_returns (Some rel) (Values_Get (Query r) "name"))
      as (url & [err|] & Hres); rewrite Hres.
    + eapply Run_asset_error; eassumption.
    + eapply Run_redirect; eassumption.
  - eapply Run_no_release; eassumption.
  - eapply Run_panic; eassumption.
Qed.

Lemma Reaches_unique
    (http_NewRequest : string → string → option OutRequest)
    (r : Request) (req req' : OutRequest) :
  Reaches http_NewRequest r req → Reaches http_NewRequest r req' → req = req'.
Proof. intros (_ & _ & _ & H) (_ & _ & _ & H'). congruence. Qed.

Lemma GetLatestRelease_Ret_elem
    (parse : string → option Z) (resp : list (ptr GitHubReleasesResp))
    (rel : GitHubReleasesResp) :
  GetLatestRelease parse resp = Ret (Some rel) → Some rel ∈ resp.
Proof.
  unfold GetLatestRelease. destruct resp as [|p0 [|p1 resp]].
  - discriminate.
  - cbn. intros [= ->]. left.
  - repeat case_decide; try discriminate.
    cbn [lookup list_lookup default from_option id]. intros Hrun.
    apply rangeM_latestStep_Ret in Hrun as [[->|Hin] _]; [left|exact Hin].
Qed.

Lemma AssertByName_found_inv (rel : GitHubReleasesResp) (name url : string) :
  AssertByName (Some rel) name = Ret (url, None) →
  name ≠ "" ∧ ∃ a, a ∈ Assets rel ∧ AssetName a = name ∧ url = BrowserDownloadUrl a.
Proof.
  destruct (decide (name = "")) as [->|Hname]; [discriminate|].
  rewrite (AssertByName_release rel name Hname).
  destruct (decide (Assets rel = [])); [discriminate|].
  destruct (findAsset_inv name (Assets rel))
    as [(i & a & Hi & Ha & _ & Hfind) | [_ Hfind]]; rewrite Hfind; [|discriminate].
  intros [= <-]. split; [exact Hname|]. exists a.
  split; [apply list_elem_of_lookup; exists i; exact Hi|]. split; [exact Ha|reflexivity].
Qed.

(** Case analysis on the path of a run. *)
Ltac run_cases parse newreq up r :=
  let o := fresh "o" in
  let Hrun := fresh "Hrun" in
  generalize (handler_Run parse newreq up r);
  generalize (DownloadLatestGithubRelease parse newreq up r);
  intros o Hrun; destruct Hrun; cbn [fst snd].

(** Membership in the short event lists of the paths. *)
Ltac split_elem :=
  repeat match goal with
  | H : _ ∈ _ :: _ |- _ => apply elem_of_cons in H as [H|H]
  | H : _ ∈ [] |- _ => inversion H
  end.

(** X7: the upstream API is called exactly for the GET requests whose
    [repo] is not empty and has one ["/"] and for which [http.NewRequest]
    makes a request; the call is then the first effect of the run and the
    only call. *)
Theorem upstream_called_iff
    (parse : string → option Z)
    (http_NewRequest : string → string → option OutRequest)
    (upstream : OutRequest → Upstream) (r : Request) (req : OutRequest) :
  (ClientDo req ∈ (DownloadLatestGithubRelease parse http_NewRequest upstream r).1
   ↔ Reaches http_NewRequest r req) ∧
  (ClientDo req ∈ (DownloadLatestGithubRelease parse http_NewRequest upstream r).1 →
   ∃ rest,
     (DownloadLatestGithubRelease parse http_NewRequest upstream r).1 = ClientDo req :: rest ∧
     ∀ e, e ∈ rest → isCall e = false).
Proof.
  run_cases parse http_NewRequest upstream r.
  1-4: split; [split|]; [intros Hin; split_elem; discriminate
                        |intros (Hm & Hrepo & Hsplit & Hreq); congruence
                        |intros Hin; split_elem; discriminate].
  all: split; [split|].
  all: try (intros Hin; split_elem; try discriminate;
            match goal with H : ClientDo _ = ClientDo _ |- _ => injection H as -> end;
            assumption).
  all: try (intros Hreach;
            match goal with H : Reaches _ _ ?q |- _ =>
              rewrite (Reaches_unique http_NewRequest r req q Hreach H) end;
            left).
  all: intros Hin; split_elem; try discriminate;
       match goal with H : ClientDo _ = ClientDo _ |- _ => injection H as -> end;
       eexists; (split; [reflexivity|]); intros e He; split_elem; subst e; reflexivity.
Qed.

(** X8: the client is left without an answer exactly when a GET request
    with a well-formed [repo] cannot be sent or is not answered with a list
    that decodes: the run then returns having written nothing; on every
    other path the run writes a response or panics. *)
Theorem no_answer_iff
    (parse : string → option Z)
    (http_NewRequest : string → string → option OutRequest)
    (upstream : OutRequest → Upstream) (r : Request) :
  ((DownloadLatestGithubRelease parse http_NewRequest upstream r).2 = Returned ∧
   ∀ e, e ∈ (DownloadLatestGithubRelease parse http_NewRequest upstream r).1 →
        isResponse e = false)
  ↔
  (Method r = MethodGet ∧
   Values_Get (Query r) "repo" ≠ "" ∧
   length (strings_Split (Values_Get (Query r) "repo") "/") = 2%nat ∧
   (http_NewRequest MethodGet (releasesURL (Values_Get (Query r) "repo")) = None ∨
    ∃ req,
      http_NewRequest MethodGet (releasesURL (Values_Get (Query r) "repo")) = Some req ∧
      ∀ respStruct, upstream req ≠ Decoded respStruct)).
Proof.
  run_cases parse http_NewRequest upstream r.
  - split.
    + intros [_ Hno]. specialize (Hno (WriteHeader 405)). discriminate Hno. left.
    + intros (Hm & _). contradiction.
  - split.
    + intros [_ Hno]. specialize (Hno _ (list_elem_of_here _ _)). discriminate Hno.
    + intros (_ & Hrepo & _). contradiction.
  - split.
    + intros [_ Hno]. specialize (Hno _ (list_elem_of_here _ _)). discriminate Hno.
    + intros (_ & _ & Hsplit & _). contradiction.
  - split.
    + intros _. repeat split; try assumption. left. assumption.
    + intros _. split; [reflexivity|]. intros e He. inversion He.
  - destruct H as (Hm & Hrepo & Hsplit & Hreq). split.
    + intros _. repeat split; try assumption. right. exists req. split; assumption.
    + intros _. split; [reflexivity|]. intros e He. split_elem. subst e. reflexivity.
  - destruct H as (Hm & Hrepo & Hsplit & Hreq). split.
    + intros [Hend _]. discriminate.
    + intros (_ & _ & _ & [Hnone | (req' & Hreq' & Hno)]); [congruence|].
      assert (req' = req) as -> by congruence. exfalso. eapply Hno; eassumption.
  - destruct H as (Hm & Hrepo & Hsplit & Hreq). split.
    + intros [_ Hno].
      specialize (Hno _ (list_elem_of_further _ _ _ (list_elem_of_here _ _))).
      discriminate Hno.
    + intros (_ & _ & _ & [Hnone | (req' & Hreq' & Hno)]); [congruence|].
      assert (req' = req) as -> by congruence. exfalso. eapply Hno; eassumption.
  - destruct H as (Hm & Hrepo & Hsplit & Hreq). split.
    + intros [_ Hno].
      specialize (Hno _ (list_elem_of_further _ _ _ (list_elem_of_here _ _))).
      discriminate Hno.
    + intros (_ & _ & _ & [Hnone | (req' & Hreq' & Hno)]); [congruence|].
      assert (req' = req) as -> by congruence. exfalso. eapply Hno; eassumption.
  - destruct H as (Hm & Hrepo & Hsplit & Hreq). split.
    + intros [_ Hno].
      specialize (Hno _ (list_elem_of_further _ _ _ (list_elem_of_here _ _))).
      discriminate Hno.
    + intros (_ & _ & _ & [Hnone | (req' & Hreq' & Hno)]); [congruence|].
      assert (req' = req) as -> by congruence. exfalso. eapply Hno; eassumption.
Qed.

Lemma NewResp_code (code : Z) (msg : string) :
  NewResp code msg !! "code" = Some (VInt code).
Proof.
  unfold NewResp. rewrite lookup_insert_ne by discriminate. apply lookup_insert_eq.
Qed.

(** X9: whatever the handler writes has one of three shapes: a JSON body
    is an envelope of [NewResp] with code -1 (no success envelope exists),
    a redirect has status 307, and a status line is 405 and is written
    only for a method other than GET, followed by the setting of the
    [Allow] header. *)
Theorem responses_shape
    (parse : string → option Z)
    (http_NewRequest : string → string → option OutRequest)
    (upstream : OutRequest → Upstream) (r : Request) (e : Event) :
  e ∈ (DownloadLatestGithubRelease parse http_NewRequest upstream r).1 →
  match e with
  | ResponseWrite data =>
    Method r = MethodGet ∧ ∃ msg, data = NewResp (-1) msg ∧ data !! "code" = Some (VInt (-1))
  | HttpRedirect url code => Method r = MethodGet ∧ code = 307
  | WriteHeader code => Method r ≠ MethodGet ∧ code = 405
  | HeaderSet key value => Method r ≠ MethodGet ∧ key = "Allow" ∧ value = "GET"
  | ClientDo req =>
    Method r = MethodGet ∧
    http_NewRequest MethodGet (releasesURL (Values_Get (Query r) "repo")) = Some req
  end.
Proof.
  run_cases parse http_NewRequest upstream r; intros Hin; split_elem; subst e;
    try (destruct H as (Hm & Hrepo & Hsplit & Hreq));
    repeat split; try assumption; try reflexivity;
    try (eexists; split; [reflexivity|apply NewResp_code]).
Qed.

Lemma responses_shape_witness :
  Method (getRequest "d4x1/tool" "missing.zip") = MethodGet ∧
  ∃ msg,
    NewResp (-1) "get repo: d4x1/tool's asset err: not found" = NewResp (-1) msg ∧
    NewResp (-1) "get repo: d4x1/tool's asset err: not found" !! "code" = Some (VInt (-1)).
Proof.
  apply (responses_shape GoTime.Parse_RFC3339 newRequest
           (answering [Some rel2020; Some rel2023])
           (getRequest "d4x1/tool" "missing.zip")
           (ResponseWrite (NewResp (-1) "get repo: d4x1/tool's asset err: not found"))).
  vm_compute. right. left.
Defined.

(** X10: a run answers the client at most once and calls the upstream API
    at most once, and a run that panics has written nothing. *)
Theorem answers_at_most_once
    (parse : string → option Z)
    (http_NewRequest : string → string → option OutRequest)
    (upstream : OutRequest → Upstream) (r : Request) :
  (length (List.filter isResponse
             (DownloadLatestGithubRelease parse http_NewRequest upstream r).1) ≤ 1)%nat ∧
  (length (List.filter isCall
             (DownloadLatestGithubRelease parse http_NewRequest upstream r).1) ≤ 1)%nat ∧
  (∀ msg,
     (DownloadLatestGithubRelease parse http_NewRequest upstream r).2 = Panicked msg →
     List.filter isResponse
       (DownloadLatestGithubRelease parse http_NewRequest upstream r).1 = []).
Proof.
  run_cases parse http_NewRequest upstream r; cbn;
    (split; [lia|split; [lia|]]); intros m Hm; try discriminate; reflexivity.
Qed.

(** X11: the handler redirects only to a URL it got from the upstream API:
    the target of a redirect is the [browser_download_url] of an asset of
    a release in the decoded list, the asset has the requested name, and
    the name is not empty. *)
Theorem redirect_target_from_upstream
    (parse : string → option Z)
    (http_NewRequest : string → string → option OutRequest)
    (upstream : OutRequest → Upstream) (r : Request) (url : string) (code : Z) :
  HttpRedirect url code
    ∈ (DownloadLatestGithubRelease parse http_NewRequest upstream r).1 →
  Values_Get (Query r) "name" ≠ "" ∧
  ∃ req respStruct rel a,
    Reaches http_NewRequest r req ∧
    upstream req = Decoded respStruct ∧
    Some rel ∈ respStruct ∧
    a ∈ Assets rel ∧
    AssetName a = Values_Get (Query r) "name" ∧
    url = BrowserDownloadUrl a.
Proof.
  run_cases parse http_NewRequest upstream r; intros Hin; split_elem; try discriminate.
  injection Hin as -> ->.
  match goal with H : AssertByName _ _ = _ |- _ =>
    apply AssertByName_found_inv in H as (Hname & a & Ha & Hn & Hurl) end.
  split; [exact Hname|].
  exists req, respStruct, rel, a.
  split; [assumption|]. split; [assumption|].
  split; [eapply GetLatestRelease_Ret_elem; eassumption|].
  split; [exact Ha|]. split; [exact Hn|exact Hurl].
Qed.

Lemma redirect_target_from_upstream_witness :
  Values_Get (Query (getRequest "d4x1/tool" "app.zip")) "name" ≠ "" ∧
  ∃ req respStruct rel a,
    Reaches newRequest (getRequest "d4x1/tool" "app.zip") req ∧
    answering [Some rel2020; Some rel2023] req = Decoded respStruct ∧
    Some rel ∈ respStruct ∧
    a ∈ Assets rel ∧
    AssetName a = Values_Get (Query (getRequest "d4x1/tool" "app.zip")) "name" ∧
    "https://x/app.zip" = BrowserDownloadUrl a.
Proof.
  apply (redirect_target_from_upstream GoTime.Parse_RFC3339 newRequest
           (answering [Some rel2020; Some rel2023])
           (getRequest "d4x1/tool" "app.zip") "https://x/app.zip" 307).
  vm_compute. right. left.
Defined.

(** X12: a run panics exactly when a GET request with a well-formed [repo]
    is answered by the upstream API with a list of two or more elements
    that holds a nil pointer; the panic is the nil dereference in
    [GetLatestRelease], and the outbound call is all the run has done. *)
Theorem handler_panics_iff
    (parse : string → option Z)
    (http_NewRequest : string → string → option OutRequest)
    (upstream : OutRequest → Upstream) (r : Request) (msg : string) :
  ((DownloadLatestGithubRelease parse http_NewRequest upstream r).2 = Panicked msg
   ↔ msg = nilDeref ∧
     ∃ req respStruct,
       Reaches http_NewRequest r req ∧ upstream req = Decoded respStruct ∧
       (2 ≤ length respStruct)%nat ∧ None ∈ respStruct) ∧
  ((DownloadLatestGithubRelease parse http_NewRequest upstream r).2 = Panicked msg →
   ∃ req, (DownloadLatestGithubRelease parse http_NewRequest upstream r).1 = [ClientDo req]).
Proof.
  assert (Hsel : ∀ l p, GetLatestRelease parse l = Ret p →
                        ¬ ((2 ≤ length l)%nat ∧ None ∈ l)).
  { intros l p Hret.
    destruct (GetLatestRelease_outcome parse l) as [(_ & _ & Hp) | [Hno _]];
      [congruence|exact Hno]. }
  run_cases parse http_NewRequest upstream r.
  1-4: split; [split|]; [discriminate| |discriminate];
       intros (_ & req & l & (Hm & Hrepo & Hsplit & Hreq) & _); congruence.
  - split; [split|]; [discriminate| |discriminate].
    intros (_ & req' & l & Hreach & Hup & _).
    rewrite (Reaches_unique http_NewRequest r req' req Hreach H) in Hup.
    exfalso. eapply H0. exact Hup.
  - destruct (GetLatestRelease_outcome parse respStruct)
      as [(Hlen & Hin & Hp) | [_ [p Hp]]]; [|congruence].
    assert (msg0 = nilDeref) as -> by congruence.
    split; [split|].
    + intros [= <-]. split; [reflexivity|]. exists req, respStruct. auto.
    + intros [-> _]. reflexivity.
    + intros _. exists req. reflexivity.
  - split; [split|]; [discriminate| |discriminate].
    intros (_ & req' & l & Hreach & Hup & Hbad).
    rewrite (Reaches_unique http_NewRequest r req' req Hreach H) in Hup.
    assert (l = respStruct) as -> by congruence.
    exfalso. eapply Hsel; eassumption.
  - split; [split|]; [discriminate| |discriminate].
    intros (_ & req' & l & Hreach & Hup & Hbad).
    rewrite (Reaches_unique http_NewRequest r req' req Hreach H) in Hup.
    assert (l = respStruct) as -> by congruence.
    exfalso. eapply Hsel; eassumption.
  - split; [split|]; [discriminate| |discriminate].
    intros (_ & req' & l & Hreach & Hup & Hbad).
    rewrite (Reaches_unique http_NewRequest r req' req Hreach H) in Hup.
    assert (l = respStruct) as -> by congruence.
    exfalso. eapply Hsel; eassumption.
Qed.

(** X13: of the decoded list only the release [GetLatestRelease] selects
    matters: two upstream answers with the same selected release lead to
    the same run, so an asset that only an older release has is not
    found. *)
Theorem handler_depends_on_latest
    (parse : string → option Z)
    (http_NewRequest : string → string → option OutRequest)
    (upstream1 upstream2 : OutRequest → Upstream) (r : Request) (req : OutRequest)
    (l1 l2 : list (ptr GitHubReleasesResp)) :
  Reaches http_NewRequest r req →
  upstream1 req = Decoded l1 → upstream2 req = Decoded l2 →
  GetLatestRelease parse l1 = GetLatestRelease parse l2 →
  DownloadLatestGithubRelease parse http_NewRequest upstream1 r
  = DownloadLatestGithubRelease parse http_NewRequest upstream2 r.
Proof.
  intros (Hm & Hrepo & Hsplit & Hreq) Hup1 Hup2 Hsel.
  rewrite (handler_upstream parse http_NewRequest upstream1 r _ req
             Hm eq_refl Hrepo Hsplit Hreq).
  rewrite (handler_upstream parse http_NewRequest upstream2 r _ req
             Hm eq_refl Hrepo Hsplit Hreq).
  rewrite Hup1, Hup2, Hsel. reflexivity.
Qed.

Lemma handler_depends_on_latest_witness :
  DownloadLatestGithubRelease GoTime.Parse_RFC3339 newRequest
    (answering [Some rel2023; Some rel2023b]) (getRequest "d4x1/tool" "app.zip")
  = DownloadLatestGithubRelease GoTime.Parse_RFC3339 newRequest
      (answering [Some relBad; Some rel2020; Some rel2023])
      (getRequest "d4x1/tool" "app.zip").
Proof.
  apply (handler_depends_on_latest GoTime.Parse_RFC3339 newRequest
           (answering [Some rel2023; Some rel2023b])
           (answering [Some relBad; Some rel2020; Some rel2023])
           (getRequest "d4x1/tool" "app.zip")
           (mkOutRequest "GET" "https://api.github.com/repos/d4x1/tool/releases")
           [Some rel2023; Some rel2023b] [Some relBad; Some rel2020; Some rel2023]).
  - split; [reflexivity|]. split; [vm_compute; discriminate|].
    split; vm_compute; reflexivity.
  - reflexivity.
  - reflexivity.
  - vm_compute. reflexivity.
Defined.

(** X14: the [name] parameter is read only once a release is selected:
    when the upstream answer selects no release, two requests that agree
    on the method and on [repo] run alike, whatever their [name]. *)
Theorem name_read_after_selection
    (parse : string → option Z)
    (http_NewRequest : string → string → option OutRequest)
    (upstream : OutRequest → Upstream) (r1 r2 : Request) :
  Method r1 = Method r2 →
  Values_Get (Query r1) "repo" = Values_Get (Query r2) "repo" →
  (∀ req respStruct rel,
     http_NewRequest MethodGet (releasesURL (Values_Get (Query r1) "repo")) = Some req →
     upstream req = Decoded respStruct →
     GetLatestRelease parse respStruct ≠ Ret (Some rel)) →
  DownloadLatestGithubRelease parse http_NewRequest upstream r1
  = DownloadLatestGithubRelease parse http_NewRequest upstream r2.
Proof.
  intros Hm Hrepo Hnone. unfold DownloadLatestGithubRelease.
  rewrite <- Hm, <- Hrepo.
  destruct (decide (Method r1 = MethodGet)); [|reflexivity].
  destruct (decide (Values_Get (Query r1) "repo" = "")); [reflexivity|].
  destruct (decide (length (strings_Split (Values_Get (Query r1) "repo") "/") ≠ 2%nat));
    [reflexivity|].
  change (Sprintf githubAPI [Values_Get (Query r1) "repo"])
    with (releasesURL (Values_Get (Query r1) "repo")).
  destruct (http_NewRequest MethodGet _) as [req|] eqn:Hreq; [|reflexivity].
  destruct (upstream req) as [| | |respStruct] eqn:Hup; try reflexivity.
  destruct (GetLatestRelease parse respStruct) as [[rel|]|msg] eqn:Hsel;
    try reflexivity.
  exfalso. exact (Hnone req respStruct rel eq_refl Hup Hsel).
Qed.

Lemma name_read_after_selection_witness :
  DownloadLatestGithubRelease GoTime.Parse_RFC3339 newRequest (answering [])
    (getRequest "d4x1/tool" "app.zip")
  = DownloadLatestGithubRelease GoTime.Parse_RFC3339 newRequest (answering [])
      (getRequest "d4x1/tool" "").
Proof.
  apply (name_read_after_selection GoTime.Parse_RFC3339 newRequest (answering [])
           (getRequest "d4x1/tool" "app.zip") (getRequest "d4x1/tool" "")).
  - reflexivity.
  - vm_compute. reflexivity.
  - intros req respStruct rel _ [= <-]. discriminate.
Defined.

(** The first release of greatest timestamp is the one selected. *)
Lemma GetLatestRelease_first_max
    (parse : string → option Z) (rs : list GitHubReleasesResp) (i : nat)
    (rel : GitHubReleasesResp) :
  rs !! i = Some rel →
  (∀ k r', rs !! k = Some r' → stamp parse r' <= stamp parse rel) →
  (∀ k r', (k < i)%nat → rs !! k = Some r' → stamp parse r' < stamp parse rel) →
  GetLatestRelease parse (Some <$> rs) = Ret (Some rel).
Proof.
  intros Hi Hmax Hfirst. destruct rs as [|r0 rs]; [inversion Hi|].
  rewrite GetLatestRelease_Some.
  pose proof (fold_keepLater_spec parse rs r0) as H. cbn zeta in H.
  set (x := fold_left (keepLater parse) rs r0) in *.
  destruct H as (Hge & Hall & Hpos).
  assert (Hx : ∃ i', (r0 :: rs) !! i' = Some x ∧
                     ∀ k r', (k < i')%nat → (r0 :: rs) !! k = Some r' →
                             stamp parse r' < stamp parse x).
  { destruct Hpos as [[Heq _] | (i' & Hi' & Hlt & Hbefore)].
    - exists 0%nat. split; [cbn; congruence|]. intros k r' Hk; lia.
    - exists (S i'). split; [exact Hi'|].
      intros [|k] r' Hk Hr'; cbn in Hr'; [inversion Hr'; subst; exact Hlt|].
      apply (Hbefore k r'); [lia|exact Hr']. }
  destruct Hx as (i' & Hi' & Hfirst').
  assert (Hle : stamp parse x <= stamp parse rel) by exact (Hmax i' x Hi').
  assert (Hle' : stamp parse rel <= stamp parse x).
  { destruct i as [|i]; cbn in Hi; [inversion Hi; subst; exact Hge|].
    exact (Hall i rel Hi). }
  destruct (lt_eq_lt_dec i i') as [[Hlt|Heq]|Hgt].
  - specialize (Hfirst' i rel Hlt Hi). lia.
  - subst i'. congruence.
  - specialize (Hfirst i' x Hgt Hi'). lia.
Qed.

(** X15: end to end: when the upstream API answers with a list of
    releases, the handler redirects with status 307 to the first asset of
    the requested name in the first release of greatest timestamp, after
    one call of the upstream API. *)
Theorem latest_asset_redirect
    (parse : string → option Z)
    (http_NewRequest : string → string → option OutRequest)
    (upstream : OutRequest → Upstream) (r : Request) (req : OutRequest)
    (rs : list GitHubReleasesResp) (i j : nat) (rel : GitHubReleasesResp) (a : Asset) :
  Reaches http_NewRequest r req →
  upstream req = Decoded (Some <$> rs) →
  rs !! i = Some rel →
  (∀ k r', rs !! k = Some r' →
     TimeStrToUnix parse (PublishedAt r') <= TimeStrToUnix parse (PublishedAt rel)) →
  (∀ k r', (k < i)%nat → rs !! k = Some r' →
     TimeStrToUnix parse (PublishedAt r') < TimeStrToUnix parse (PublishedAt rel)) →
  Values_Get (Query r) "name" ≠ "" →
  Assets rel !! j = Some a →
  AssetName a = Values_Get (Query r) "name" →
  (∀ k a', (k < j)%nat → Assets rel !! k = Some a' →
     AssetName a' ≠ Values_Get (Query r) "name") →
  DownloadLatestGithubRelease parse http_NewRequest upstream r
  = ([ClientDo req; HttpRedirect (BrowserDownloadUrl a) 307], Returned).
Proof.
  intros (Hm & Hrepo & Hsplit & Hreq) Hup Hi Hmax Hfirst Hname Hj Ha Hafirst.
  rewrite (handler_upstream parse http_NewRequest upstream r _ req
             Hm eq_refl Hrepo Hsplit Hreq).
  rewrite Hup, (GetLatestRelease_first_max parse rs i rel Hi Hmax Hfirst).
  rewrite (AssertByName_release rel _ Hname).
  destruct (decide (Assets rel = [])) as [Hnil|_];
    [rewrite Hnil in Hj; inversion Hj|].
  rewrite (findAsset_found _ (Assets rel) j a Hj Ha Hafirst). reflexivity.
Qed.

Lemma latest_asset_redirect_witness :
  DownloadLatestGithubRelease GoTime.Parse_RFC3339 newRequest
    (answering (Some <$> [rel2020; rel2023; rel2023b])) (getRequest "d4x1/tool" "app.zip")
  = ([ClientDo (mkOutRequest "GET" "https://api.github.com/repos/d4x1/tool/releases");
      HttpRedirect "https://x/app.zip" 307],
     Returned).
Proof.
  apply (latest_asset_redirect GoTime.Parse_RFC3339 newRequest
           (answering (Some <$> [rel2020; rel2023; rel2023b]))
           (getRequest "d4x1/tool" "app.zip")
           (mkOutRequest "GET" "https://api.github.com/repos/d4x1/tool/releases")
           [rel2020; rel2023; rel2023b] 1%nat 0%nat rel2023
           (mkAsset 10 "app.zip" "https://x/app.zip")).
  - split; [reflexivity|]. split; [vm_compute; discriminate|].
    split; vm_compute; reflexivity.
  - reflexivity.
  - reflexivity.
  - intros k r' Hk. destruct k as [|[|[|k]]]; cbn in Hk; inversion Hk; subst r';
      vm_compute; discriminate.
  - intros k r' Hlt Hk. destruct k as [|k]; [|lia].
    cbn in Hk. inversion Hk; subst r'. vm_compute. reflexivity.
  - vm_compute. discriminate.
  - reflexivity.
  - vm_compute. reflexivity.
  - intros k a' Hk. lia.
Defined.

(** X16: the handler takes its 405 path exactly when the method is not
    GET: the run is then the call [WriteHeader(405)] followed by the call
    that sets the [Allow] header, the header after the status line, and
    nothing else, whatever the method and the query are; the run of a GET
    request never consists of these two calls. *)
Theorem method_not_allowed_iff
    (parse : string → option Z)
    (http_NewRequest : string → string → option OutRequest)
    (upstream : OutRequest → Upstream) (r : Request) :
  (Method r ≠ MethodGet ↔
   DownloadLatestGithubRelease parse http_NewRequest upstream r
   = ([WriteHeader 405; HeaderSet "Allow" "GET"], Returned)) ∧
  (∀ r', Method r ≠ MethodGet → Method r' ≠ MethodGet →
     DownloadLatestGithubRelease parse http_NewRequest upstream r'
     = DownloadLatestGithubRelease parse http_NewRequest upstream r).
Proof.
  split.
  - run_cases parse http_NewRequest upstream r;
      try (destruct H as (Hm & Hrepo & Hsplit & Hreq));
      (split; [intros Hne; try contradiction; reflexivity|]);
      try discriminate.
    intros _. assumption.
  - intros r' Hne Hne'. unfold DownloadLatestGithubRelease.
    destruct (decide (Method r = MethodGet)); [contradiction|].
    destruct (decide (Method r' = MethodGet)); [contradiction|]. reflexivity.
Qed.

Lemma method_not_allowed_iff_witness :
  DownloadLatestGithubRelease GoTime.Parse_RFC3339 newRequest (answering [Some rel2023])
    (mkRequest "DELETE" (<["repo" := ["d4x1/tool"]]> ∅))
  = DownloadLatestGithubRelease GoTime.Parse_RFC3339 newRequest (answering [Some rel2023])
      (mkRequest "POST" ∅).
Proof.
  apply (proj2 (method_not_allowed_iff GoTime.Parse_RFC3339 newRequest
                  (answering [Some rel2023]) (mkRequest "POST" ∅))).
  - discriminate.
  - discriminate.
Defined.
